(** * Vitomu: the convert service and the convert component

    A shallow embedding of [ConvertService] (services/convert/convert.service.ts)
    and of [ConvertComponent] (components/convert/convert.component.ts),
    followed by the properties of the clipboard-driven state machine and of
    [convertAsync].

    Conventions.
    - A JavaScript string is a [string]; a character is an 8-bit code unit.
      The [string] parameter type of a method excludes [null] and
      [undefined].
    - A JavaScript [number] that the code only stores and forwards (a
      progress percentage, a bitrate) is a [Z].
    - A promise is the [Outcome] it settles with; [await] on a rejected
      promise throws, and no method of the two classes catches. *)

From Stdlib Require Import String Ascii List ZArith Arith Bool Lia.
Import ListNotations.
Local Open Scope string_scope.
Local Open Scope list_scope.

(* ===================================================================== *)
(** * Definitions *)
(* ===================================================================== *)

(** ** JavaScript built-ins used by the code *)

Module Js.

(** [x] is an initial segment of [s]. *)
Fixpoint startsWith (s x : string) {struct x} : bool :=
  match x, s with
  | EmptyString, _ => true
  | String a x', String b s' => Ascii.eqb a b && startsWith s' x'
  | String _ _, EmptyString => false
  end.

(** [String.prototype.includes]: [x] occurs in [s] as a run of consecutive
    code units; the empty string occurs in every string. *)
Fixpoint includes (s x : string) : bool :=
  startsWith s x ||
  match s with
  | EmptyString => false
  | String _ s' => includes s' x
  end.

(** [Array.prototype.some]. *)
Definition some {A : Type} (xs : list A) (p : A -> bool) : bool := existsb p xs.

(** The characters below 256 that [String.prototype.trim] strips: tab, line
    feed, vertical tab, form feed, carriage return, space and no-break
    space. *)
Definition isWhiteSpace (c : ascii) : bool :=
  let n := nat_of_ascii c in
  ((9 <=? n)%nat && (n <=? 13)%nat) || (n =? 32)%nat || (n =? 160)%nat.

End Js.

(** ** core/Strings *)

Module Strings.

(** Modelled from the spec: [Strings.isNullOrWhiteSpace] (core/Strings is not
    among the sources). The spec calls a text blank when it is null or made
    of whitespace only; the empty text is blank. *)
Definition isNullOrWhiteSpace (stringToCheck : string) : bool :=
  forallb Js.isWhiteSpace (list_ascii_of_string stringToCheck).

End Strings.

(** ** Promises *)

(** What a promise settles with. *)
Inductive Outcome (A : Type) : Type :=
| Resolved (value : A)
| Rejected (reason : string).

Arguments Resolved {A} value.
Arguments Rejected {A} reason.

(** ** services/convert/convert.service.ts *)

Module ConvertService.

(** [AudioFormat] is declared in core/audio-format; the service reads only
    its [id]. *)
Record AudioFormat : Type := {
  id : string
}.

(** [ConversionResult], as the service reads it. *)
Record ConversionResult : Type := {
  isConversionSuccessful : bool;
  convertedFilePath : string
}.

(** The interface of a dependency checker that the service uses. *)
Record DependencyChecker : Type := {
  isDependencyAvailableAsync : Outcome bool;
  isDependencyInSystemPathAsync : Outcome bool;
  getPathOfDownloadedDependency : string;
  downloadedDependencyFolder : string
}.

(** The arguments of one [VideoConverter.convertAsync] call, in the order of
    the call; the seventh argument, the progress callback, is accounted for
    in [VideoConverter]. *)
Record ConvertRequest : Type := {
  req_videoUrl : string;
  req_outputDirectory : string;
  req_audioFormat : option AudioFormat;
  req_audioBitrate : option Z;
  req_ffmpegPathOverride : string;
  req_youtubeDlPathOverride : string
}.

(** A video converter: for a request, the percentages it hands to the
    progress callback, in order, and what its promise settles with. *)
Record VideoConverter : Type := {
  converter_convertAsync : ConvertRequest -> list Z * Outcome ConversionResult
}.

(** The part of core/file-system that [convertAsync] uses. *)
Record FileSystem : Type := {
  musicDirectory : string;
  ensureDirectoryAsync : string -> Outcome unit;
  getFileName : string -> string
}.

(** The mutable fields of the service. [conversionProgressChanged] holds the
    values pushed to the subject of that name, oldest first. The selected
    format and bitrate come from [Array.prototype.find] and may be
    undefined. *)
Record Fields : Type := {
  outputDirectory : string;
  _lastConvertedFilePath : string;
  _lastConvertedFileName : string;
  conversionProgressChanged : list Z;
  _selectedAudioFormat : option AudioFormat;
  _selectedAudioBitrate : option Z
}.

(** The service together with the calls it has made to video converters,
    oldest first. *)
Record World : Type := {
  this : Fields;
  converterCalls : list ConvertRequest
}.

(** A method body: it runs on a world, may change it, and returns or
    throws. What was changed before a throw stays changed. *)
Definition M (A : Type) : Type := World -> Outcome A * World.

Definition ret {A : Type} (a : A) : M A := fun w => (Resolved a, w).

Definition bind {A B : Type} (m : M A) (k : A -> M B) : M B :=
  fun w =>
    match m w with
    | (Resolved a, w') => k a w'
    | (Rejected e, w') => (Rejected e, w')
    end.

(** [await p]. *)
Definition await {A : Type} (p : Outcome A) : M A := fun w => (p, w).

Definition modify (f : Fields -> Fields) : M unit :=
  fun w => (Resolved tt, {| this := f (this w); converterCalls := converterCalls w |}).

Definition read {A : Type} (f : Fields -> A) : M A :=
  fun w => (Resolved (f (this w)), w).

Declare Scope svc_scope.
Delimit Scope svc_scope with svc.
Notation "x <- m ;; k" := (bind m (fun x => k))
  (at level 61, m at next level, right associativity) : svc_scope.
Notation "m ;; k" := (bind m (fun _ => k))
  (at level 61, right associativity) : svc_scope.

(** The setters. *)
Definition set_lastConvertedFilePath (v : string) (f : Fields) : Fields :=
  {| outputDirectory := outputDirectory f;
     _lastConvertedFilePath := v;
     _lastConvertedFileName := _lastConvertedFileName f;
     conversionProgressChanged := conversionProgressChanged f;
     _selectedAudioFormat := _selectedAudioFormat f;
     _selectedAudioBitrate := _selectedAudioBitrate f |}.

Definition set_lastConvertedFileName (v : string) (f : Fields) : Fields :=
  {| outputDirectory := outputDirectory f;
     _lastConvertedFilePath := _lastConvertedFilePath f;
     _lastConvertedFileName := v;
     conversionProgressChanged := conversionProgressChanged f;
     _selectedAudioFormat := _selectedAudioFormat f;
     _selectedAudioBitrate := _selectedAudioBitrate f |}.

(** [onConversionProgressChanged]: push the value to the subject. *)
Definition onConversionProgressChanged (progressPercent : Z) (f : Fields) : Fields :=
  {| outputDirectory := outputDirectory f;
     _lastConvertedFilePath := _lastConvertedFilePath f;
     _lastConvertedFileName := _lastConvertedFileName f;
     conversionProgressChanged := conversionProgressChanged f ++ [progressPercent];
     _selectedAudioFormat := _selectedAudioFormat f;
     _selectedAudioBitrate := _selectedAudioBitrate f |}.

(** One call of a converter: the request is recorded, every percentage the
    converter reports goes through the callback
    [(progressPercent) => this.onConversionProgressChanged(progressPercent)],
    then the promise settles. *)
Definition invoke (videoConverter : VideoConverter) (request : ConvertRequest)
  : M ConversionResult :=
  fun w =>
    let (reported, settled) := converter_convertAsync videoConverter request in
    (settled,
     {| this := fold_left (fun f p => onConversionProgressChanged p f) reported (this w);
        converterCalls := converterCalls w ++ [request] |}).

Section Service.

(** [Constants.youtubeLinks] (core/constants is not among the sources). *)
Variable youtubeLinks : list string.

(** The injected collaborators. *)
Variable fileSystem : FileSystem.
Variable ffmpegChecker : DependencyChecker.
Variable youtubeDlChecker : DependencyChecker.
(** [videoConverterFactory.create]. *)
Variable create : string -> VideoConverter.

Definition isVideoUrlConvertible (videoUrl : string) : bool :=
  if negb (Strings.isNullOrWhiteSpace videoUrl)
  then Js.some youtubeLinks (fun x => Js.includes videoUrl x)
  else false.

Definition isFfmpegAvailableAsync : M bool :=
  await (isDependencyAvailableAsync ffmpegChecker).

Definition isYoutubeDlAvailableAsync : M bool :=
  await (isDependencyAvailableAsync youtubeDlChecker).

Local Open Scope svc_scope.

Definition convertAsync (videoUrl : string) : M ConversionResult :=
  dir <- read outputDirectory ;;
  await (ensureDirectoryAsync fileSystem dir) ;;
  ffmpegInSystemPath <- await (isDependencyInSystemPathAsync ffmpegChecker) ;;
  let ffmpegPathOverride :=
    if negb ffmpegInSystemPath
    then getPathOfDownloadedDependency ffmpegChecker
    else "" in
  youtubeDlInSystemPath <- await (isDependencyInSystemPathAsync youtubeDlChecker) ;;
  let youtubeDlPathOverride :=
    if negb youtubeDlInSystemPath
    then getPathOfDownloadedDependency youtubeDlChecker
    else "" in
  let videoConverter := create videoUrl in
  outputDir <- read outputDirectory ;;
  selectedAudioFormat <- read _selectedAudioFormat ;;
  selectedAudioBitrate <- read _selectedAudioBitrate ;;
  conversionResult <- invoke videoConverter
    {| req_videoUrl := videoUrl;
       req_outputDirectory := outputDir;
       req_audioFormat := selectedAudioFormat;
       req_audioBitrate := selectedAudioBitrate;
       req_ffmpegPathOverride := ffmpegPathOverride;
       req_youtubeDlPathOverride := youtubeDlPathOverride |} ;;
  (if isConversionSuccessful conversionResult
   then
     modify (set_lastConvertedFilePath (convertedFilePath conversionResult)) ;;
     modify (set_lastConvertedFileName
               (getFileName fileSystem (convertedFilePath conversionResult)))
   else ret tt) ;;
  ret conversionResult.

Local Close Scope svc_scope.

(** *** Notions used to state the properties of [convertAsync] *)

(** The override the spec describes for one dependency: empty when the
    dependency is found on the system path, else the path of the downloaded
    copy that its checker reports. *)
Definition overrideFor (checker : DependencyChecker) (inSystemPath : bool) : string :=
  if inSystemPath then "" else getPathOfDownloadedDependency checker.

(** The request [convertAsync] hands to the converter when the two
    system-path checks resolve with [inPathF] and [inPathY]. *)
Definition requestMade (videoUrl : string) (w : World) (inPathF inPathY : bool)
  : ConvertRequest :=
  {| req_videoUrl := videoUrl;
     req_outputDirectory := outputDirectory (this w);
     req_audioFormat := _selectedAudioFormat (this w);
     req_audioBitrate := _selectedAudioBitrate (this w);
     req_ffmpegPathOverride := overrideFor ffmpegChecker inPathF;
     req_youtubeDlPathOverride := overrideFor youtubeDlChecker inPathY |}.

(** The fields after the converter has reported [reported]. *)
Definition report (reported : list Z) (f : Fields) : Fields :=
  fold_left (fun f p => onConversionProgressChanged p f) reported f.

(** What the service looks like after a conversion that settled with
    [settled], having reported [reported]. *)
Definition recorded (settled : Outcome ConversionResult) (f : Fields) : Fields :=
  match settled with
  | Resolved r =>
      if isConversionSuccessful r
      then set_lastConvertedFileName (getFileName fileSystem (convertedFilePath r))
             (set_lastConvertedFilePath (convertedFilePath r) f)
      else f
  | Rejected _ => f
  end.

End Service.

(** *** A concrete setting, for running the service on examples *)

(** The part of a path after its last slash. *)
Fixpoint fileNameOf (p : string) : string :=
  match p with
  | EmptyString => EmptyString
  | String c rest =>
      if Js.includes rest "/" then fileNameOf rest
      else if Ascii.eqb c "/" then rest
      else String c rest
  end.

Definition sampleFileSystem : FileSystem :=
  {| musicDirectory := "/home/user/Music";
     ensureDirectoryAsync := fun _ => Resolved tt;
     getFileName := fileNameOf |}.

(** A checker of a dependency that is, or is not, on the system path, with
    its downloaded copy at [downloaded]. *)
Definition sampleChecker (inSystemPath : bool) (downloaded : string) : DependencyChecker :=
  {| isDependencyAvailableAsync := Resolved true;
     isDependencyInSystemPathAsync := Resolved inSystemPath;
     getPathOfDownloadedDependency := downloaded;
     downloadedDependencyFolder := "/home/user/.config/Vitomu/Dependencies" |}.

(** A converter that reports 45 and 100 percent and succeeds, and one that
    reports 10 percent and fails. *)
Definition succeedingConverter : VideoConverter :=
  {| converter_convertAsync := fun request =>
       ([45; 100]%Z,
        Resolved {| isConversionSuccessful := true;
                    convertedFilePath := req_outputDirectory request ++ "/song.mp3" |}) |}.

Definition failingConverter : VideoConverter :=
  {| converter_convertAsync := fun _ =>
       ([10]%Z,
        Resolved {| isConversionSuccessful := false;
                    convertedFilePath := "" |}) |}.

(** A service that converted [/home/user/Music/Vitomu/old.mp3] earlier. *)
Definition sampleWorld : World :=
  {| this := {| outputDirectory := "/home/user/Music/Vitomu";
                _lastConvertedFilePath := "/home/user/Music/Vitomu/old.mp3";
                _lastConvertedFileName := "old.mp3";
                conversionProgressChanged := [];
                _selectedAudioFormat := Some {| id := "mp3" |};
                _selectedAudioBitrate := Some 320%Z |};
     converterCalls := [] |}.

Definition sampleUrl : string := "https://youtube.com/watch?v=abc".

(** [convertAsync sampleUrl] on that service, with ffmpeg on the system path,
    youtube-dl downloaded to [/deps/youtube-dl], and the factory creating
    [converter]. *)
Definition sampleConvertAsync (converter : VideoConverter)
  : Outcome ConversionResult * World :=
  convertAsync sampleFileSystem
    (sampleChecker true "") (sampleChecker false "/deps/youtube-dl")
    (fun _ => converter) sampleUrl sampleWorld.

End ConvertService.

(** ** components/convert/convert.component.ts *)

Module ConvertComponent.

(** Modelled from the spec: the [ConvertState] enumeration
    (services/convert/convert-state is not among the sources). The component
    names five of its members; the spec lists these six. *)
Inductive ConvertState : Type :=
| WaitingForClipboardContent
| HasValidClipboardContent
| Converting
| Successful
| Failed
| FFmpegNotFound.

(** [===] on two members of the enumeration. *)
Definition ConvertState_eqb (a b : ConvertState) : bool :=
  match a, b with
  | WaitingForClipboardContent, WaitingForClipboardContent
  | HasValidClipboardContent, HasValidClipboardContent
  | Converting, Converting
  | Successful, Successful
  | Failed, Failed
  | FFmpegNotFound, FFmpegNotFound => true
  | _, _ => false
  end.

(** The three streams [ngOnInit] subscribes to. *)
Inductive Observable : Type :=
| convertStateChanged_
| convertProgressChanged_
| clipboardContentChanged_.

Definition Observable_eqb (a b : Observable) : bool :=
  match a, b with
  | convertStateChanged_, convertStateChanged_
  | convertProgressChanged_, convertProgressChanged_
  | clipboardContentChanged_, clipboardContentChanged_ => true
  | _, _ => false
  end.

(** The fields of the component. [subscription] lists the streams whose
    handlers the composite [Subscription] currently holds. *)
Record Fields : Type := {
  subscription : list Observable;
  _progressPercent : Z;
  _downloadUrl : string;
  _convertState : ConvertState
}.

(** The closures the component hands to the delayer; there is one:
    [() => this.resetState()]. *)
Inductive Action : Type :=
| callResetState.

(** Modelled from the spec: [Delayer] (core/delayer is not among the
    sources). [execute action delayMilliseconds] runs [action] once, when
    [delayMilliseconds] have elapsed since the call and not before. The
    delayer is a clock in milliseconds and the actions not yet run, each with
    the time at which it is due, in the order of the calls. *)
Record Delayer : Type := {
  now : nat;
  pending : list (nat * Action)
}.

Definition execute (action : Action) (delayMilliseconds : nat) (d : Delayer) : Delayer :=
  {| now := now d;
     pending := pending d ++ [(now d + delayMilliseconds, action)] |}.

(** The calls the component makes on the convert service. *)
Inductive ServiceCall : Type :=
| call_checkPrerequisitesAsync
| call_convertAsync (videoUrl : string).

(** The component in its surroundings: its fields, the injected delayer, the
    calls made on the service so far (oldest first) and whether the promise
    awaited in [checkPrerequisitesAsync] is still unsettled. *)
Record World : Type := {
  this : Fields;
  delayer : Delayer;
  convertCalls : list ServiceCall;
  awaitingPrerequisites : bool
}.

(** The setters. *)
Definition set_progressPercent (v : Z) (f : Fields) : Fields :=
  {| subscription := subscription f;
     _progressPercent := v;
     _downloadUrl := _downloadUrl f;
     _convertState := _convertState f |}.

Definition set_convertState (v : ConvertState) (f : Fields) : Fields :=
  {| subscription := subscription f;
     _progressPercent := _progressPercent f;
     _downloadUrl := _downloadUrl f;
     _convertState := v |}.

Definition set_downloadUrl (v : string) (f : Fields) : Fields :=
  {| subscription := subscription f;
     _progressPercent := _progressPercent f;
     _downloadUrl := v;
     _convertState := _convertState f |}.

Definition set_subscription (v : list Observable) (f : Fields) : Fields :=
  {| subscription := v;
     _progressPercent := _progressPercent f;
     _downloadUrl := _downloadUrl f;
     _convertState := _convertState f |}.

Definition on_this (g : Fields -> Fields) (w : World) : World :=
  {| this := g (this w);
     delayer := delayer w;
     convertCalls := convertCalls w;
     awaitingPrerequisites := awaitingPrerequisites w |}.

Definition on_delayer (g : Delayer -> Delayer) (w : World) : World :=
  {| this := this w;
     delayer := g (delayer w);
     convertCalls := convertCalls w;
     awaitingPrerequisites := awaitingPrerequisites w |}.

Definition call (c : ServiceCall) (w : World) : World :=
  {| this := this w;
     delayer := delayer w;
     convertCalls := convertCalls w ++ [c];
     awaitingPrerequisites := awaitingPrerequisites w |}.

Definition set_awaiting (b : bool) (w : World) : World :=
  {| this := this w;
     delayer := delayer w;
     convertCalls := convertCalls w;
     awaitingPrerequisites := b |}.

Definition resetState (f : Fields) : Fields :=
  set_downloadUrl "" (set_progressPercent 0 (set_convertState WaitingForClipboardContent f)).

(** [new ConvertComponent(...)]: the field initialiser gives an empty
    subscription and the constructor body calls [resetState], which assigns
    the three other fields; the delayer starts at time 0 with nothing
    pending. *)
Definition new : World :=
  {| this := resetState {| subscription := [];
                           _progressPercent := 0;
                           _downloadUrl := "";
                           _convertState := WaitingForClipboardContent |};
     delayer := {| now := 0; pending := [] |};
     convertCalls := [];
     awaitingPrerequisites := false |}.

(** [zone.run(fn)] calls [fn] at once; the handlers below are the bodies run
    in the zone. *)
Definition handleConvertStateChanged (convertState : ConvertState) (w : World) : World :=
  let w1 := on_this (set_convertState convertState) w in
  if ConvertState_eqb convertState Failed || ConvertState_eqb convertState Successful
  then on_delayer (execute callResetState 3000) w1
  else w1.

Definition handleConvertProgressChanged (progressPercent : Z) (w : World) : World :=
  on_this (set_progressPercent progressPercent) w.

Section Component.

(** [Constants.youtubeLinks], read by [convert.isVideoUrlConvertible]. *)
Variable youtubeLinks : list string.

Definition handleClipboardContentChanged (clipboardText : string) (w : World) : World :=
  if negb (ConvertState_eqb (_convertState (this w)) WaitingForClipboardContent)
     && negb (ConvertState_eqb (_convertState (this w)) HasValidClipboardContent)
  then w
  else
    if ConvertService.isVideoUrlConvertible youtubeLinks clipboardText
    then on_this (fun f => set_downloadUrl clipboardText
                             (set_convertState HasValidClipboardContent f)) w
    else on_this resetState w.

(** [ngOnInit] up to its [await]: the three subscriptions are added and the
    prerequisites check is requested from the service. *)
Definition ngOnInit (w : World) : World :=
  set_awaiting true
    (call call_checkPrerequisitesAsync
       (on_this (fun f => set_subscription
                   (subscription f ++ [convertStateChanged_;
                                       convertProgressChanged_;
                                       clipboardContentChanged_]) f) w)).

(** [checkPrerequisitesAsync] after its [await], when the promise of the
    service settles. A rejection leaves the fields as they are. *)
Definition checkPrerequisitesAsync (settled : Outcome bool) (w : World) : World :=
  if awaitingPrerequisites w
  then
    match settled with
    | Resolved true =>
        set_awaiting false (on_this (set_convertState WaitingForClipboardContent) w)
    | Resolved false =>
        set_awaiting false (on_this (set_convertState FFmpegNotFound) w)
    | Rejected _ => set_awaiting false w
    end
  else w.

Definition ngOnDestroy (w : World) : World :=
  on_this (set_subscription []) w.

Definition performConvert (w : World) : World :=
  call (call_convertAsync (_downloadUrl (this w))) w.

(** Running a delayed action. *)
Definition runAction (a : Action) (f : Fields) : Fields :=
  match a with
  | callResetState => resetState f
  end.

Definition isDue (t : nat) (timer : nat * Action) : bool := (fst timer <=? t)%nat.

(** [ms] milliseconds go by: the pending actions that are due by then run,
    in the order in which they were scheduled (all are scheduled with the
    same delay, so that is also the order in which they fall due). *)
Definition elapse (ms : nat) (w : World) : World :=
  let t := (now (delayer w) + ms)%nat in
  let fired := filter (isDue t) (pending (delayer w)) in
  let rest := filter (fun timer => negb (isDue t timer)) (pending (delayer w)) in
  {| this := fold_left (fun f timer => runAction (snd timer) f) fired (this w);
     delayer := {| now := t; pending := rest |};
     convertCalls := convertCalls w;
     awaitingPrerequisites := awaitingPrerequisites w |}.

(** What can happen to a component once [ngOnInit] has been called. *)
Inductive Event : Type :=
| Emit_convertStateChanged (convertState : ConvertState)
| Emit_convertProgressChanged (progressPercent : Z)
| Emit_clipboardContentChanged (clipboardText : string)
| PrerequisitesSettled (settled : Outcome bool)
| Elapse (ms : nat)
| PerformConvert
| NgOnDestroy.

(** A stream reaches its handler only while the subscription holds it. *)
Definition subscribed (o : Observable) (w : World) : bool :=
  existsb (Observable_eqb o) (subscription (this w)).

Definition step (w : World) (e : Event) : World :=
  match e with
  | Emit_convertStateChanged convertState =>
      if subscribed convertStateChanged_ w
      then handleConvertStateChanged convertState w else w
  | Emit_convertProgressChanged progressPercent =>
      if subscribed convertProgressChanged_ w
      then handleConvertProgressChanged progressPercent w else w
  | Emit_clipboardContentChanged clipboardText =>
      if subscribed clipboardContentChanged_ w
      then handleClipboardContentChanged clipboardText w else w
  | PrerequisitesSettled settled => checkPrerequisitesAsync settled w
  | Elapse ms => elapse ms w
  | PerformConvert => performConvert w
  | NgOnDestroy => ngOnDestroy w
  end.

Definition run (w : World) (events : list Event) : World :=
  fold_left step events w.

(** A component whose initialisation ran to its end before anything else
    happened: constructed, [ngOnInit] called, prerequisites check resolved
    with [available]. *)
Definition initialised (available : bool) : World :=
  checkPrerequisitesAsync (Resolved available) (ngOnInit new).

(** The states in which the spec allows a non-empty [downloadUrl]: valid
    clipboard content, or a conversion that is running or has just ended. *)
Definition mayHoldUrl (s : ConvertState) : bool :=
  match s with
  | HasValidClipboardContent | Converting | Successful | Failed => true
  | WaitingForClipboardContent | FFmpegNotFound => false
  end.

Definition urlInvariant (w : World) : bool :=
  ((_downloadUrl (this w)) =? "")%string || mayHoldUrl (_convertState (this w)).

(** The states a conversion reports through [convertStateChanged$]. *)
Definition isConversionState (s : ConvertState) : bool :=
  match s with
  | Converting | Successful | Failed => true
  | _ => false
  end.

Definition reportsConversion (e : Event) : bool :=
  match e with
  | Emit_convertStateChanged s => isConversionState s
  | _ => true
  end.

Definition isConvertStateEvent (e : Event) : bool :=
  match e with
  | Emit_convertStateChanged _ => true
  | _ => false
  end.

(** How many times the component has asked the service to check the
    prerequisites. *)
Definition isCheckCall (c : ServiceCall) : bool :=
  match c with
  | call_checkPrerequisitesAsync => true
  | call_convertAsync _ => false
  end.

Definition prerequisiteChecks (w : World) : nat :=
  length (filter isCheckCall (convertCalls w)).

(** An emission of one of the three streams. *)
Definition isEmission (e : Event) : bool :=
  match e with
  | Emit_convertStateChanged _
  | Emit_convertProgressChanged _
  | Emit_clipboardContentChanged _ => true
  | _ => false
  end.

End Component.

(** A link list for running the component on examples ([Constants] is not
    among the sources): one under which the sample URL of the spec,
    [https://youtube.com/watch?v=abc], is convertible. *)
Definition sampleLinks : list string := ["youtube.com"; "youtu.be"].

End ConvertComponent.

(** ** convert.service.ts: what [convertAsync] awaits before converting *)

Module Preparation.

Import ConvertService.

(** The three promises [convertAsync] awaits before it creates a converter,
    in the order of the awaits: the first rejection is thrown, and when all
    resolve the two system-path answers are what the overrides are made
    from. *)
Definition awaited (fileSystem : FileSystem)
  (ffmpegChecker youtubeDlChecker : DependencyChecker) (dir : string)
  : Outcome (bool * bool) :=
  match ensureDirectoryAsync fileSystem dir with
  | Rejected e => Rejected e
  | Resolved _ =>
      match isDependencyInSystemPathAsync ffmpegChecker with
      | Rejected e => Rejected e
      | Resolved inPathF =>
          match isDependencyInSystemPathAsync youtubeDlChecker with
          | Rejected e => Rejected e
          | Resolved inPathY => Resolved (inPathF, inPathY)
          end
      end
  end.

(** The last-converted path after a call that settled with [settled], when
    it was [before] at the start. *)
Definition lastPathAfter (settled : Outcome ConversionResult) (before : string) : string :=
  match settled with
  | Resolved r => if isConversionSuccessful r then convertedFilePath r else before
  | Rejected _ => before
  end.

(** One conversion after another, for each URL in turn, whatever each call
    returns or throws. *)
Definition convertEach (fileSystem : FileSystem)
  (ffmpegChecker youtubeDlChecker : DependencyChecker)
  (create : string -> VideoConverter) (urls : list string) (w : World) : World :=
  fold_left
    (fun w url => snd (convertAsync fileSystem ffmpegChecker youtubeDlChecker create url w))
    urls w.

(** [xs] can be obtained from [ys] by leaving elements out, the order
    kept. *)
Fixpoint isSubsequence (xs ys : list string) {struct ys} : bool :=
  match xs with
  | [] => true
  | x :: xs' =>
      match ys with
      | [] => false
      | y :: ys' => ((x =? y)%string && isSubsequence xs' ys') || isSubsequence xs ys'
      end
  end.

End Preparation.

(** ** convert.service.ts: the dependency methods *)

Module DependencyMethods.

Import ConvertService.

(** The calls these methods make on the logger, the two downloaders and the
    updater. *)
Inductive Effect : Type :=
| logger_info (message callerClass callerMethod : string)
| ffmpegDownloader_downloadAsync (targetFolder : string)
| youtubeDlDownloader_downloadAsync (targetFolder : string)
| youtubeDlUpdater_updateYoutubeDl (path : string).

(** A method body that touches no field of the service: it adds to the calls
    made so far (oldest first) and returns or throws. *)
Definition T (A : Type) : Type := list Effect -> Outcome A * list Effect.

Definition ret {A : Type} (a : A) : T A := fun made => (Resolved a, made).

Definition bind {A B : Type} (m : T A) (k : A -> T B) : T B :=
  fun made =>
    match m made with
    | (Resolved a, made') => k a made'
    | (Rejected e, made') => (Rejected e, made')
    end.

Definition await {A : Type} (p : Outcome A) : T A := fun made => (p, made).

(** A call that returns or throws as [settles] says. *)
Definition perform {A : Type} (e : Effect) (settles : Outcome A) : T A :=
  fun made => (settles, made ++ [e]).

Declare Scope dep_scope.
Notation "x <- m ;; k" := (bind m (fun x => k))
  (at level 61, m at next level, right associativity) : dep_scope.
Notation "m ;; k" := (bind m (fun _ => k))
  (at level 61, right associativity) : dep_scope.

Section Methods.

Variable youtubeDlChecker : DependencyChecker.
(** [youtubeDlUpdater.updateYoutubeDl]: how the call ends. *)
Variable youtubeDlUpdater : string -> Outcome unit.

Local Open Scope dep_scope.

Definition updateYoutubeDl : T unit :=
  if negb (Strings.isNullOrWhiteSpace (getPathOfDownloadedDependency youtubeDlChecker))
  then
    perform (logger_info "Start updating Youtube-dl." "ConvertService" "updateYoutubeDlAsync")
            (Resolved tt) ;;
    perform (youtubeDlUpdater_updateYoutubeDl (getPathOfDownloadedDependency youtubeDlChecker))
            (youtubeDlUpdater (getPathOfDownloadedDependency youtubeDlChecker)) ;;
    perform (logger_info "Finished updating Youtube-dl." "ConvertService" "updateYoutubeDlAsync")
            (Resolved tt)
  else ret tt.

End Methods.

(** The two checkers and the two downloaders of the service, as injected
    (the checkers come from the factory); a downloader is how its
    [downloadAsync] ends for a target folder. *)
Record Injected : Type := {
  ffmpegChecker : DependencyChecker;
  youtubeDlChecker : DependencyChecker;
  ffmpegDownloader : string -> Outcome unit;
  youtubeDlDownloader : string -> Outcome unit
}.

Local Open Scope dep_scope.

Definition downloadFfmpegAsync (injected : Injected) : T unit :=
  available <- await (isDependencyAvailableAsync (ffmpegChecker injected)) ;;
  if negb available
  then
    perform (logger_info "Start downloading FFmpeg." "ConvertService" "downloadFfmpegAsync")
            (Resolved tt) ;;
    perform (ffmpegDownloader_downloadAsync
               (downloadedDependencyFolder (ffmpegChecker injected)))
            (ffmpegDownloader injected
               (downloadedDependencyFolder (ffmpegChecker injected))) ;;
    perform (logger_info "Finished downloading FFmpeg." "ConvertService" "downloadFfmpegAsync")
            (Resolved tt)
  else ret tt.

Definition downloadYoutubeDlAsync (injected : Injected) : T unit :=
  available <- await (isDependencyAvailableAsync (youtubeDlChecker injected)) ;;
  if negb available
  then
    perform (logger_info "Start downloading Youtube-dl." "ConvertService" "downloadYoutubeDlAsync")
            (Resolved tt) ;;
    perform (youtubeDlDownloader_downloadAsync
               (downloadedDependencyFolder (youtubeDlChecker injected)))
            (youtubeDlDownloader injected
               (downloadedDependencyFolder (youtubeDlChecker injected))) ;;
    perform (logger_info "Finished downloading Youtube-dl." "ConvertService" "downloadYoutubeDlAsync")
            (Resolved tt)
  else ret tt.

Local Close Scope dep_scope.

(** The folders a run asked the ffmpeg downloader for, those it asked the
    youtube-dl downloader for, the paths it asked the updater for, and
    whether it logged [message]. *)
Definition requestedFfmpegDownloads (made : list Effect) : list string :=
  flat_map (fun e => match e with
                     | ffmpegDownloader_downloadAsync folder => [folder]
                     | _ => []
                     end) made.

Definition requestedYoutubeDlDownloads (made : list Effect) : list string :=
  flat_map (fun e => match e with
                     | youtubeDlDownloader_downloadAsync folder => [folder]
                     | _ => []
                     end) made.

Definition requestedUpdates (made : list Effect) : list string :=
  flat_map (fun e => match e with
                     | youtubeDlUpdater_updateYoutubeDl path => [path]
                     | _ => []
                     end) made.

Definition logged (message : string) (made : list Effect) : bool :=
  existsb (fun e => match e with
                    | logger_info m _ _ => (m =? message)%string
                    | _ => false
                    end) made.

End DependencyMethods.

(** ** convert.service.ts and settings.component.ts: the selection and the
    settings *)

Module Configuration.

Import ConvertService.

(** The fields of the settings store that the two classes read and write. *)
Record Settings : Type := {
  audioFormat : string;
  audioBitrate : Z;
  useSystemTitleBar : bool;
  checkForUpdates : bool
}.

(** The service and the settings object injected into it; the settings
    component holds the same object. *)
Record Configured : Type := {
  service : Fields;
  settings : Settings
}.

Section Construction.

(** [Constants.audioFormats] and [Constants.audioBitrates]. *)
Variable audioFormats : list AudioFormat.
Variable audioBitrates : list Z.
(** [path.join] on two segments. *)
Variable pathJoin : string -> string -> string.
Variable fileSystem : FileSystem.

(** The field initialisers and the constructor body;
    [Array.prototype.find] is [find], undefined is [None]. *)
Definition construct (s : Settings) : Configured :=
  {| service :=
       {| outputDirectory := pathJoin (musicDirectory fileSystem) "Vitomu";
          _lastConvertedFilePath := "";
          _lastConvertedFileName := "";
          conversionProgressChanged := [];
          _selectedAudioFormat :=
            find (fun x => (id x =? audioFormat s)%string) audioFormats;
          _selectedAudioBitrate :=
            find (fun x => (x =? audioBitrate s)%Z) audioBitrates |};
     settings := s |}.

End Construction.

(** [set selectedAudioFormat(v)]. *)
Definition set_selectedAudioFormat (v : AudioFormat) (c : Configured) : Configured :=
  {| service :=
       {| outputDirectory := outputDirectory (service c);
          _lastConvertedFilePath := _lastConvertedFilePath (service c);
          _lastConvertedFileName := _lastConvertedFileName (service c);
          conversionProgressChanged := conversionProgressChanged (service c);
          _selectedAudioFormat := Some v;
          _selectedAudioBitrate := _selectedAudioBitrate (service c) |};
     settings :=
       {| audioFormat := id v;
          audioBitrate := audioBitrate (settings c);
          useSystemTitleBar := useSystemTitleBar (settings c);
          checkForUpdates := checkForUpdates (settings c) |} |}.

(** [set selectedAudioBitrate(v)]. *)
Definition set_selectedAudioBitrate (v : Z) (c : Configured) : Configured :=
  {| service :=
       {| outputDirectory := outputDirectory (service c);
          _lastConvertedFilePath := _lastConvertedFilePath (service c);
          _lastConvertedFileName := _lastConvertedFileName (service c);
          conversionProgressChanged := conversionProgressChanged (service c);
          _selectedAudioFormat := _selectedAudioFormat (service c);
          _selectedAudioBitrate := Some v |};
     settings :=
       {| audioFormat := audioFormat (settings c);
          audioBitrate := v;
          useSystemTitleBar := useSystemTitleBar (settings c);
          checkForUpdates := checkForUpdates (settings c) |} |}.

(** [SettingsComponent]: [set useSystemTitleBarChecked(v)] and
    [set checkForUpdatesChecked(v)], on the shared settings. *)
Definition set_useSystemTitleBarChecked (v : bool) (c : Configured) : Configured :=
  {| service := service c;
     settings :=
       {| audioFormat := audioFormat (settings c);
          audioBitrate := audioBitrate (settings c);
          useSystemTitleBar := v;
          checkForUpdates := checkForUpdates (settings c) |} |}.

Definition set_checkForUpdatesChecked (v : bool) (c : Configured) : Configured :=
  {| service := service c;
     settings :=
       {| audioFormat := audioFormat (settings c);
          audioBitrate := audioBitrate (settings c);
          useSystemTitleBar := useSystemTitleBar (settings c);
          checkForUpdates := v |} |}.

(** The getters of [SettingsComponent]. *)
Definition useSystemTitleBarChecked (c : Configured) : bool :=
  useSystemTitleBar (settings c).

Definition checkForUpdatesChecked (c : Configured) : bool :=
  checkForUpdates (settings c).

(** What the user can do on the settings and the format pickers. *)
Inductive Choice : Type :=
| SelectAudioFormat (v : AudioFormat)
| SelectAudioBitrate (v : Z)
| CheckUseSystemTitleBar (v : bool)
| CheckCheckForUpdates (v : bool).

Definition choose (c : Configured) (o : Choice) : Configured :=
  match o with
  | SelectAudioFormat v => set_selectedAudioFormat v c
  | SelectAudioBitrate v => set_selectedAudioBitrate v c
  | CheckUseSystemTitleBar v => set_useSystemTitleBarChecked v c
  | CheckCheckForUpdates v => set_checkForUpdatesChecked v c
  end.

(** A selection that is defined is the one the settings name. *)
Definition selectionAgrees (c : Configured) : bool :=
  match _selectedAudioFormat (service c) with
  | Some v => (id v =? audioFormat (settings c))%string
  | None => true
  end &&
  match _selectedAudioBitrate (service c) with
  | Some v => (v =? audioBitrate (settings c))%Z
  | None => true
  end.

End Configuration.

(** ** convert.component.ts: the actions on the converted file, and notions
    about runs *)

Module ConvertComponentActions.

Import ConvertComponent.

(** The calls on [desktop]. *)
Inductive DesktopCall : Type :=
| desktop_showInFolder (path : string)
| desktop_openInDefaultApplication (path : string).

(** [viewInFolder] and [play] read [convert.lastConvertedFilePath]. *)
Definition viewInFolder (convert : ConvertService.Fields) : DesktopCall :=
  desktop_showInFolder (ConvertService._lastConvertedFilePath convert).

Definition play (convert : ConvertService.Fields) : DesktopCall :=
  desktop_openInDefaultApplication (ConvertService._lastConvertedFilePath convert).

(** A URL is acceptable when it is empty or convertible. *)
Definition acceptable (youtubeLinks : list string) (url : string) : bool :=
  (url =? "")%string || ConvertService.isVideoUrlConvertible youtubeLinks url.

(** The URLs handed to [convert.convertAsync] so far. *)
Definition convertedUrls (w : World) : list string :=
  flat_map (fun c => match c with
                     | call_convertAsync url => [url]
                     | call_checkPrerequisitesAsync => []
                     end) (convertCalls w).

Definition isTerminal (s : ConvertState) : bool :=
  match s with
  | Successful | Failed => true
  | _ => false
  end.

End ConvertComponentActions.

(** ** More of the concrete setting *)

Module Samples.

(** A file system on which the output directory cannot be created. *)
Definition lockedFileSystem : ConvertService.FileSystem :=
  {| ConvertService.musicDirectory := "/home/user/Music";
     ConvertService.ensureDirectoryAsync := fun _ => Rejected "EACCES";
     ConvertService.getFileName := ConvertService.fileNameOf |}.

Definition formats : list ConvertService.AudioFormat :=
  [{| ConvertService.id := "mp3" |}; {| ConvertService.id := "flac" |}].

Definition bitrates : list Z := [128; 192; 320]%Z.

Definition pathJoin (a b : string) : string := (a ++ "/" ++ b)%string.

Definition settingsWith (format : string) (bitrate : Z) : Configuration.Settings :=
  {| Configuration.audioFormat := format;
     Configuration.audioBitrate := bitrate;
     Configuration.useSystemTitleBar := false;
     Configuration.checkForUpdates := true |}.

(** A service constructed over the sample lists from the given settings. *)
Definition constructed (format : string) (bitrate : Z) : Configuration.Configured :=
  Configuration.construct formats bitrates pathJoin ConvertService.sampleFileSystem
    (settingsWith format bitrate).

Definition otherUrl : string := "https://youtu.be/xyz".

End Samples.

(* ===================================================================== *)
(** * Properties *)
(* ===================================================================== *)

(** ** Strings *)

(** From here on [++] joins strings; lists are joined with [(_ ++ _)%list]. *)
Local Open Scope string_scope.

Section StringFacts.

Lemma startsWith_append (x post : string) :
  Js.startsWith (x ++ post) x = true.
Proof.
  induction x as [|a x IH]; simpl.
  - destruct post; reflexivity.
  - rewrite Ascii.eqb_refl. exact IH.
Qed.

Lemma startsWith_inv (s x : string) :
  Js.startsWith s x = true -> exists post, s = x ++ post.
Proof.
  revert s. induction x as [|a x IH]; intros s H.
  - exists s. reflexivity.
  - destruct s as [|b s]; simpl in H; [discriminate|].
    apply andb_true_iff in H. destruct H as [Hab Hrest].
    apply Ascii.eqb_eq in Hab. subst b.
    destruct (IH s Hrest) as [post ->].
    exists post. reflexivity.
Qed.

(** [includes] finds exactly the contiguous occurrences. *)
Lemma includes_spec (s x : string) :
  Js.includes s x = true <-> exists pre post, s = pre ++ x ++ post.
Proof.
  split.
  - induction s as [|c s IH]; simpl; intro H.
    + rewrite orb_false_r in H.
      apply startsWith_inv in H. destruct H as [post E].
      exists EmptyString, post. exact E.
    + apply orb_true_iff in H. destruct H as [H|H].
      * apply startsWith_inv in H. destruct H as [post E].
        exists EmptyString, post. exact E.
      * destruct (IH H) as (pre & post & ->).
        exists (String c pre), post. reflexivity.
  - intros (pre & post & ->).
    induction pre as [|c pre IH].
    + simpl append.
      assert (H : Js.startsWith (x ++ post) x = true) by apply startsWith_append.
      destruct (x ++ post); simpl; rewrite H; reflexivity.
    + simpl. rewrite IH. apply orb_true_r.
Qed.

(** A text is blank exactly when each of its characters is whitespace. *)
Lemma isNullOrWhiteSpace_spec (s : string) :
  Strings.isNullOrWhiteSpace s = true <->
  (forall c, In c (list_ascii_of_string s) -> Js.isWhiteSpace c = true).
Proof.
  unfold Strings.isNullOrWhiteSpace. apply forallb_forall.
Qed.

Lemma not_blank_spec (s : string) :
  Strings.isNullOrWhiteSpace s = false <->
  (exists c, In c (list_ascii_of_string s) /\ Js.isWhiteSpace c = false).
Proof.
  unfold Strings.isNullOrWhiteSpace.
  induction (list_ascii_of_string s) as [|a l IH]; simpl.
  - split; [discriminate | intros (c & [] & _)].
  - rewrite andb_false_iff, IH. split.
    + intros [H | (c & Hin & Hc)].
      * exists a. auto.
      * exists c. auto.
    + intros (c & [<- | Hin] & Hc); [left; exact Hc | right; exists c; auto].
Qed.

End StringFacts.

(** ** The convert service *)

Section ServiceFacts.

Import ConvertService.

Variable youtubeLinks : list string.

Example convertible_sample :
  isVideoUrlConvertible ["youtube.com"; "youtu.be"] "https://youtube.com/watch?v=abc" = true.
Proof. reflexivity. Qed.

Example convertible_blank :
  isVideoUrlConvertible ["youtube.com"; ""] "  " = false.
Proof. reflexivity. Qed.

Example convertible_unrelated :
  isVideoUrlConvertible ["youtube.com"; "youtu.be"] "https://example.org/" = false.
Proof. reflexivity. Qed.

(** C2. [isVideoUrlConvertible s] is true exactly when [s] is not blank
    (some character of it is not whitespace) and some member of
    [Constants.youtubeLinks] occurs in [s] as a substring. The function
    takes the text and the constant list only and returns a boolean only:
    it reads and writes no state. *)
Theorem isVideoUrlConvertible_iff (s : string) :
  isVideoUrlConvertible youtubeLinks s = true <->
  (exists c, In c (list_ascii_of_string s) /\ Js.isWhiteSpace c = false) /\
  (exists x, In x youtubeLinks /\ exists pre post, s = pre ++ x ++ post).
Proof.
  unfold isVideoUrlConvertible, Js.some.
  rewrite <- not_blank_spec.
  destruct (Strings.isNullOrWhiteSpace s) eqn:Hblank; simpl.
  - split; [discriminate | intros [H _]; discriminate].
  - rewrite existsb_exists. split.
    + intros (x & Hin & Hx). split; [reflexivity|].
      exists x. split; [exact Hin|]. now apply includes_spec.
    + intros (_ & x & Hin & Hx). exists x. split; [exact Hin|].
      now apply includes_spec.
Qed.

End ServiceFacts.

Section ConvertAsyncFacts.

Import ConvertService.

Variable fileSystem : FileSystem.
Variable ffmpegChecker youtubeDlChecker : DependencyChecker.
Variable create : string -> VideoConverter.

Local Abbreviation convertAsync :=
  (ConvertService.convertAsync fileSystem ffmpegChecker youtubeDlChecker create).
Local Abbreviation requestMade := (ConvertService.requestMade ffmpegChecker youtubeDlChecker).
Local Abbreviation recorded := (ConvertService.recorded fileSystem).

Lemma report_frame (reported : list Z) (f : Fields) :
  outputDirectory (report reported f) = outputDirectory f /\
  _lastConvertedFilePath (report reported f) = _lastConvertedFilePath f /\
  _lastConvertedFileName (report reported f) = _lastConvertedFileName f /\
  _selectedAudioFormat (report reported f) = _selectedAudioFormat f /\
  _selectedAudioBitrate (report reported f) = _selectedAudioBitrate f.
Proof.
  revert f. induction reported as [|p ps IH]; intro f; simpl.
  - repeat split.
  - destruct (IH (onConversionProgressChanged p f)) as (H1 & H2 & H3 & H4 & H5).
    unfold report in *. rewrite H1, H2, H3, H4, H5. repeat split.
Qed.

(** [convertAsync] step by step, once the three promises it awaits before
    the conversion have resolved. *)
Lemma convertAsync_resolved (videoUrl : string) (w : World) (inPathF inPathY : bool) :
  ensureDirectoryAsync fileSystem (outputDirectory (this w)) = Resolved tt ->
  isDependencyInSystemPathAsync ffmpegChecker = Resolved inPathF ->
  isDependencyInSystemPathAsync youtubeDlChecker = Resolved inPathY ->
  let request := requestMade videoUrl w inPathF inPathY in
  let conversion := converter_convertAsync (create videoUrl) request in
  convertAsync videoUrl w =
    (snd conversion,
     {| this := recorded (snd conversion) (report (fst conversion) (this w));
        converterCalls := (converterCalls w ++ [request])%list |}).
Proof.
  intros Hdir HF HY request conversion.
  unfold ConvertService.convertAsync, bind, read, await, invoke, modify, ret.
  rewrite Hdir, HF, HY.
  assert (Hreq :
    {| req_videoUrl := videoUrl;
       req_outputDirectory := outputDirectory (this w);
       req_audioFormat := _selectedAudioFormat (this w);
       req_audioBitrate := _selectedAudioBitrate (this w);
       req_ffmpegPathOverride :=
         if negb inPathF then getPathOfDownloadedDependency ffmpegChecker else "";
       req_youtubeDlPathOverride :=
         if negb inPathY then getPathOfDownloadedDependency youtubeDlChecker else "" |}
    = request).
  { unfold request, ConvertService.requestMade, overrideFor.
    destruct inPathF, inPathY; reflexivity. }
  rewrite Hreq. fold conversion. fold (report (fst conversion) (this w)).
  destruct conversion as [reported [r|e]]; simpl; [|reflexivity].
  destruct (isConversionSuccessful r); reflexivity.
Qed.

(** C7. Once the output directory is ensured and the two system-path checks
    have resolved, [convertAsync] calls the converter once, for the given
    URL, and whatever [ConversionResult] that call resolves with is what
    [convertAsync] resolves with, successful or not: a failed conversion is
    returned, not thrown. When the result is successful, the service records
    its file path and the file name derived from it. *)
Theorem convertAsync_returns_conversion_result
  (videoUrl : string) (w : World) (inPathF inPathY : bool) :
  ensureDirectoryAsync fileSystem (outputDirectory (this w)) = Resolved tt ->
  isDependencyInSystemPathAsync ffmpegChecker = Resolved inPathF ->
  isDependencyInSystemPathAsync youtubeDlChecker = Resolved inPathY ->
  exists request,
    converterCalls (snd (convertAsync videoUrl w)) = (converterCalls w ++ [request])%list /\
    req_videoUrl request = videoUrl /\
    forall r,
      snd (converter_convertAsync (create videoUrl) request) = Resolved r ->
      fst (convertAsync videoUrl w) = Resolved r /\
      (isConversionSuccessful r = true ->
       _lastConvertedFilePath (this (snd (convertAsync videoUrl w))) = convertedFilePath r /\
       _lastConvertedFileName (this (snd (convertAsync videoUrl w))) =
         getFileName fileSystem (convertedFilePath r)).
Proof.
  intros Hdir HF HY.
  exists (requestMade videoUrl w inPathF inPathY).
  rewrite (convertAsync_resolved videoUrl w inPathF inPathY Hdir HF HY).
  simpl. split; [reflexivity|]. split; [reflexivity|].
  intros r Hr. split; [exact Hr|].
  intro Hok. rewrite Hr. simpl. rewrite Hok. split; reflexivity.
Qed.

(** C8. The converter is called with, for ffmpeg and for youtube-dl alike,
    the empty string as path override when that dependency is found on the
    system path and the path of the downloaded copy, as its checker reports
    it, when it is not. *)
Theorem convertAsync_path_overrides
  (videoUrl : string) (w : World) (inPathF inPathY : bool) :
  ensureDirectoryAsync fileSystem (outputDirectory (this w)) = Resolved tt ->
  isDependencyInSystemPathAsync ffmpegChecker = Resolved inPathF ->
  isDependencyInSystemPathAsync youtubeDlChecker = Resolved inPathY ->
  exists request,
    converterCalls (snd (convertAsync videoUrl w)) = (converterCalls w ++ [request])%list /\
    req_ffmpegPathOverride request =
      (if inPathF then "" else getPathOfDownloadedDependency ffmpegChecker) /\
    req_youtubeDlPathOverride request =
      (if inPathY then "" else getPathOfDownloadedDependency youtubeDlChecker).
Proof.
  intros Hdir HF HY.
  exists (requestMade videoUrl w inPathF inPathY).
  rewrite (convertAsync_resolved videoUrl w inPathF inPathY Hdir HF HY).
  simpl. unfold overrideFor. repeat split.
Qed.

End ConvertAsyncFacts.

Section ConvertAsyncFailure.

Import ConvertService.

Variable fileSystem : FileSystem.
Variable ffmpegChecker youtubeDlChecker : DependencyChecker.
Variable create : string -> VideoConverter.

Local Abbreviation convertAsync :=
  (ConvertService.convertAsync fileSystem ffmpegChecker youtubeDlChecker create).

(** C10. When [convertAsync] resolves with a [ConversionResult] whose
    success flag is false, [lastConvertedFilePath] and
    [lastConvertedFileName] are what they were before the call. *)
Theorem convertAsync_failure_keeps_last_converted
  (videoUrl : string) (w : World) (r : ConversionResult) :
  fst (convertAsync videoUrl w) = Resolved r ->
  isConversionSuccessful r = false ->
  _lastConvertedFilePath (this (snd (convertAsync videoUrl w))) = _lastConvertedFilePath (this w) /\
  _lastConvertedFileName (this (snd (convertAsync videoUrl w))) = _lastConvertedFileName (this w).
Proof.
  destruct (ensureDirectoryAsync fileSystem (outputDirectory (this w))) as [[]|e1] eqn:Hdir.
  2:{ unfold ConvertService.convertAsync, bind, read, await. rewrite Hdir. discriminate. }
  destruct (isDependencyInSystemPathAsync ffmpegChecker) as [inPathF|e2] eqn:HF.
  2:{ unfold ConvertService.convertAsync, bind, read, await. rewrite Hdir, HF. discriminate. }
  destruct (isDependencyInSystemPathAsync youtubeDlChecker) as [inPathY|e3] eqn:HY.
  2:{ unfold ConvertService.convertAsync, bind, read, await. rewrite Hdir, HF, HY. discriminate. }
  rewrite (convertAsync_resolved fileSystem ffmpegChecker youtubeDlChecker create
             videoUrl w inPathF inPathY Hdir HF HY).
  simpl. intros Hr Hfail. rewrite Hr. simpl. rewrite Hfail.
  destruct (report_frame
              (fst (converter_convertAsync (create videoUrl)
                      (requestMade ffmpegChecker youtubeDlChecker videoUrl w inPathF inPathY)))
              (this w)) as (_ & Hpath & Hname & _).
  split; assumption.
Qed.

End ConvertAsyncFailure.

(** *** The service on the concrete setting *)

Example convertAsync_success_run :
  let after := snd (ConvertService.sampleConvertAsync ConvertService.succeedingConverter) in
  ConvertService._lastConvertedFilePath (ConvertService.this after)
    = "/home/user/Music/Vitomu/song.mp3" /\
  ConvertService._lastConvertedFileName (ConvertService.this after) = "song.mp3" /\
  ConvertService.conversionProgressChanged (ConvertService.this after) = [45; 100]%Z /\
  map ConvertService.req_youtubeDlPathOverride (ConvertService.converterCalls after)
    = ["/deps/youtube-dl"].
Proof. repeat split. Qed.

Lemma convertAsync_returns_conversion_result_witness :
  let failed := {| ConvertService.isConversionSuccessful := false;
                   ConvertService.convertedFilePath := "" |} in
  fst (ConvertService.sampleConvertAsync ConvertService.failingConverter) = Resolved failed /\
  length (ConvertService.converterCalls
            (snd (ConvertService.sampleConvertAsync ConvertService.failingConverter))) = 1.
Proof.
  destruct (convertAsync_returns_conversion_result
              ConvertService.sampleFileSystem
              (ConvertService.sampleChecker true "")
              (ConvertService.sampleChecker false "/deps/youtube-dl")
              (fun _ => ConvertService.failingConverter)
              ConvertService.sampleUrl ConvertService.sampleWorld true false
              eq_refl eq_refl eq_refl)
    as (request & Hcalls & _ & Hresult).
  split.
  - exact (proj1 (Hresult _ eq_refl)).
  - unfold ConvertService.sampleConvertAsync. rewrite Hcalls. reflexivity.
Defined.

Lemma convertAsync_path_overrides_witness :
  exists request,
    ConvertService.converterCalls
      (snd (ConvertService.sampleConvertAsync ConvertService.succeedingConverter))
    = [request] /\
    ConvertService.req_ffmpegPathOverride request = "" /\
    ConvertService.req_youtubeDlPathOverride request = "/deps/youtube-dl".
Proof.
  exact (convertAsync_path_overrides
           ConvertService.sampleFileSystem
           (ConvertService.sampleChecker true "")
           (ConvertService.sampleChecker false "/deps/youtube-dl")
           (fun _ => ConvertService.succeedingConverter)
           ConvertService.sampleUrl ConvertService.sampleWorld true false
           eq_refl eq_refl eq_refl).
Defined.

Lemma convertAsync_failure_keeps_last_converted_witness :
  let failed := {| ConvertService.isConversionSuccessful := false;
                   ConvertService.convertedFilePath := "" |} in
  let after := snd (ConvertService.sampleConvertAsync ConvertService.failingConverter) in
  (fst (ConvertService.sampleConvertAsync ConvertService.failingConverter) = Resolved failed /\
   ConvertService.isConversionSuccessful failed = false) /\
  ConvertService._lastConvertedFilePath (ConvertService.this after)
    = "/home/user/Music/Vitomu/old.mp3" /\
  ConvertService._lastConvertedFileName (ConvertService.this after) = "old.mp3".
Proof.
  split; [split; reflexivity|].
  exact (convertAsync_failure_keeps_last_converted
           ConvertService.sampleFileSystem
           (ConvertService.sampleChecker true "")
           (ConvertService.sampleChecker false "/deps/youtube-dl")
           (fun _ => ConvertService.failingConverter)
           ConvertService.sampleUrl ConvertService.sampleWorld
           {| ConvertService.isConversionSuccessful := false;
              ConvertService.convertedFilePath := "" |}
           eq_refl eq_refl).
Defined.

(** ** The convert component *)

Section ComponentFacts.

Import ConvertComponent.

Variable youtubeLinks : list string.

Local Abbreviation isVideoUrlConvertible := (ConvertService.isVideoUrlConvertible youtubeLinks).
Local Abbreviation handleClipboardContentChanged :=
  (ConvertComponent.handleClipboardContentChanged youtubeLinks).
Local Abbreviation step := (ConvertComponent.step youtubeLinks).
Local Abbreviation run := (ConvertComponent.run youtubeLinks).

(** C1. A clipboard change handled while the state is
    [WaitingForClipboardContent] or [HasValidClipboardContent]: a
    convertible text gives [HasValidClipboardContent] with that text as
    [downloadUrl]; any other text gives [WaitingForClipboardContent] with an
    empty [downloadUrl]. *)
Theorem clipboard_change_while_listening (clipboardText : string) (w : World) :
  _convertState (this w) = WaitingForClipboardContent \/
  _convertState (this w) = HasValidClipboardContent ->
  let w' := handleClipboardContentChanged clipboardText w in
  (isVideoUrlConvertible clipboardText = true ->
   _convertState (this w') = HasValidClipboardContent /\
   _downloadUrl (this w') = clipboardText) /\
  (isVideoUrlConvertible clipboardText = false ->
   _convertState (this w') = WaitingForClipboardContent /\
   _downloadUrl (this w') = "").
Proof.
  intros Hstate w'. subst w'.
  unfold ConvertComponent.handleClipboardContentChanged.
  destruct Hstate as [-> | ->]; simpl;
    destruct (isVideoUrlConvertible clipboardText); simpl;
    (split; intro H; [try discriminate H | try discriminate H]; split; reflexivity).
Qed.

(** C3. A clipboard change handled in any other state changes nothing: not
    [convertState], not [downloadUrl], nor anything else. *)
Theorem clipboard_change_ignored_elsewhere (clipboardText : string) (w : World) :
  _convertState (this w) <> WaitingForClipboardContent ->
  _convertState (this w) <> HasValidClipboardContent ->
  let w' := handleClipboardContentChanged clipboardText w in
  _convertState (this w') = _convertState (this w) /\
  _downloadUrl (this w') = _downloadUrl (this w) /\
  w' = w.
Proof.
  intros Hw Hh w'. subst w'.
  unfold ConvertComponent.handleClipboardContentChanged.
  destruct (_convertState (this w)) eqn:Hstate; simpl;
    try congruence; repeat split; exact Hstate.
Qed.

(** *** The delayer *)

Lemma resetState_fields (f : Fields) :
  _convertState (resetState f) = WaitingForClipboardContent /\
  _progressPercent (resetState f) = 0%Z /\
  _downloadUrl (resetState f) = "" /\
  subscription (resetState f) = subscription f.
Proof. repeat split. Qed.

(** Every delayed action is a reset, and a reset after a reset changes
    nothing: running a batch of due actions is one reset, or nothing when
    the batch is empty. *)
Lemma fire_batch (fired : list (nat * Action)) (f : Fields) :
  fold_left (fun f timer => runAction (snd timer) f) fired f =
  match fired with
  | [] => f
  | _ :: _ => resetState f
  end.
Proof.
  revert f. induction fired as [|[t []] rest IH]; intro f; simpl.
  - reflexivity.
  - rewrite IH. destruct rest; reflexivity.
Qed.

Lemma filter_none {A : Type} (p : A -> bool) (l : list A) :
  (forall x, In x l -> p x = false) -> filter p l = [].
Proof.
  induction l as [|a l IH]; simpl; intro H.
  - reflexivity.
  - rewrite (H a (or_introl eq_refl)). apply IH. intros x Hx. apply H. now right.
Qed.

Lemma filter_all {A : Type} (p : A -> bool) (l : list A) :
  (forall x, In x l -> p x = true) -> filter p l = l.
Proof.
  induction l as [|a l IH]; simpl; intro H.
  - reflexivity.
  - rewrite (H a (or_introl eq_refl)). f_equal. apply IH. intros x Hx. apply H. now right.
Qed.

(** Time going by with nothing due leaves the component as it is. *)
Lemma elapse_nothing_due (ms : nat) (w : World) :
  (forall timer, In timer (pending (delayer w)) -> now (delayer w) + ms < fst timer) ->
  this (elapse ms w) = this w /\
  pending (delayer (elapse ms w)) = pending (delayer w).
Proof.
  intro Hlate. unfold elapse; simpl.
  assert (Hnone : forall timer, In timer (pending (delayer w)) ->
                    isDue (now (delayer w) + ms) timer = false).
  { intros timer Hin. unfold isDue. apply Nat.leb_gt. now apply Hlate. }
  rewrite (filter_none _ _ Hnone). simpl. split; [reflexivity|].
  apply filter_all. intros timer Hin. now rewrite (Hnone timer Hin).
Qed.

(** Once an action is due, time going by runs it: the fields are those of a
    reset and the action is no longer pending. *)
Lemma elapse_due (ms t : nat) (a : Action) (w : World) :
  In (t, a) (pending (delayer w)) ->
  t <= now (delayer w) + ms ->
  this (elapse ms w) = resetState (this w) /\
  ~ In (t, a) (pending (delayer (elapse ms w))).
Proof.
  intros Hin Hdue. unfold elapse; simpl. split.
  - rewrite fire_batch.
    assert (Hfired : In (t, a) (filter (isDue (now (delayer w) + ms)) (pending (delayer w)))).
    { apply filter_In. split; [exact Hin|]. unfold isDue. now apply Nat.leb_le. }
    destruct (filter (isDue (now (delayer w) + ms)) (pending (delayer w)));
      [destruct Hfired | reflexivity].
  - intro Hstill. apply filter_In in Hstill. destruct Hstill as [_ Hnot].
    unfold isDue in Hnot. simpl in Hnot.
    apply Nat.leb_le in Hdue. rewrite Hdue in Hnot. discriminate.
Qed.

(** C4. Handling a convert-state change to [Successful] or [Failed] sets
    that state and schedules one reset, due 3000 ms later, after whatever
    was pending. Until 3000 ms have gone by that reset stays pending, and if
    no earlier reset was pending the fields stay as the handler left them.
    Once 3000 ms have gone by the reset has run and is pending no more:
    [convertState] is [WaitingForClipboardContent], [progressPercent] is 0
    and [downloadUrl] is empty. *)
Theorem terminal_state_schedules_one_reset (convertState : ConvertState) (w : World) :
  convertState = Successful \/ convertState = Failed ->
  let w' := handleConvertStateChanged convertState w in
  let timer := (now (delayer w) + 3000, callResetState) in
  _convertState (this w') = convertState /\
  pending (delayer w') = (pending (delayer w) ++ [timer])%list /\
  (forall ms, ms < 3000 ->
     In timer (pending (delayer (elapse ms w'))) /\
     (pending (delayer w) = [] -> this (elapse ms w') = this w')) /\
  (forall ms, 3000 <= ms ->
     _convertState (this (elapse ms w')) = WaitingForClipboardContent /\
     _progressPercent (this (elapse ms w')) = 0%Z /\
     _downloadUrl (this (elapse ms w')) = "" /\
     ~ In timer (pending (delayer (elapse ms w')))).
Proof.
  intros Hterminal w' timer.
  assert (Hpending : pending (delayer w') = (pending (delayer w) ++ [timer])%list).
  { subst w'. unfold handleConvertStateChanged. destruct Hterminal as [-> | ->]; reflexivity. }
  assert (Hnow : now (delayer w') = now (delayer w)).
  { subst w'. unfold handleConvertStateChanged. destruct Hterminal as [-> | ->]; reflexivity. }
  split; [|split; [exact Hpending|split]].
  - subst w'. unfold handleConvertStateChanged. destruct Hterminal as [-> | ->]; reflexivity.
  - intros ms Hms. split.
    + unfold elapse; simpl. apply filter_In. split.
      * rewrite Hpending. apply in_or_app. right. now left.
      * unfold isDue, timer; simpl. rewrite Hnow.
        apply negb_true_iff. apply Nat.leb_gt. lia.
    + intro Hempty. apply elapse_nothing_due.
      rewrite Hpending, Hempty. simpl. intros x [<- | []].
      unfold timer; simpl. rewrite Hnow. lia.
  - intros ms Hms.
    destruct (elapse_due ms (now (delayer w) + 3000) callResetState w') as [Hfields Hgone].
    + rewrite Hpending. apply in_or_app. right. now left.
    + rewrite Hnow. lia.
    + rewrite Hfields. repeat split. exact Hgone.
Qed.

End ComponentFacts.

Section Lifecycle.

Import ConvertComponent.

Variable youtubeLinks : list string.

Local Abbreviation step := (ConvertComponent.step youtubeLinks).
Local Abbreviation run := (ConvertComponent.run youtubeLinks).

(** Case analysis on one step, down to the handlers' branches. *)
Ltac step_cases w e :=
  destruct e as [s | p | text | [[|] | reason] | ms | | ]; simpl;
  unfold subscribed, handleConvertStateChanged, handleConvertProgressChanged,
    ConvertComponent.handleClipboardContentChanged, checkPrerequisitesAsync,
    performConvert, ngOnDestroy;
  repeat match goal with
         | |- context [if ?b then _ else _] => destruct b eqn:?
         end;
  simpl.

Lemma this_elapse (ms : nat) (w : World) :
  this (elapse ms w) = this w \/ this (elapse ms w) = resetState (this w).
Proof.
  unfold elapse; simpl. rewrite fire_batch.
  destruct (filter _ _); [left | right]; reflexivity.
Qed.

Lemma run_cons (w : World) (e : Event) (events : list Event) :
  run w (e :: events) = run (step w e) events.
Proof. reflexivity. Qed.

(** No handler but the convert-state handler schedules anything. *)
Lemma step_keeps_idle (w : World) (e : Event) :
  isConvertStateEvent e = false ->
  _convertState (this w) = FFmpegNotFound ->
  pending (delayer w) = [] ->
  awaitingPrerequisites w = false ->
  _convertState (this (step w e)) = FFmpegNotFound /\
  pending (delayer (step w e)) = [] /\
  awaitingPrerequisites (step w e) = false.
Proof.
  intros He Hstate Hpending Hawait.
  destruct e as [s | p | text | settled | ms | | ]; try discriminate He; simpl.
  - destruct (subscribed convertProgressChanged_ w); auto.
  - destruct (subscribed clipboardContentChanged_ w); auto.
    unfold ConvertComponent.handleClipboardContentChanged. rewrite Hstate. simpl. auto.
  - unfold checkPrerequisitesAsync. rewrite Hawait. auto.
  - unfold elapse. rewrite Hpending. simpl. auto.
  - auto.
  - auto.
Qed.

Lemma run_keeps_idle (events : list Event) (w : World) :
  forallb (fun e => negb (isConvertStateEvent e)) events = true ->
  _convertState (this w) = FFmpegNotFound ->
  pending (delayer w) = [] ->
  awaitingPrerequisites w = false ->
  _convertState (this (run w events)) = FFmpegNotFound.
Proof.
  revert w. induction events as [|e events IH]; intros w Hev Hstate Hpending Hawait.
  - exact Hstate.
  - simpl in Hev. apply andb_true_iff in Hev. destruct Hev as [He Hev].
    apply negb_true_iff in He.
    destruct (step_keeps_idle w e He Hstate Hpending Hawait) as (H1 & H2 & H3).
    rewrite run_cons. now apply IH.
Qed.

(** Only [ngOnInit] asks for the prerequisites check. *)
Lemma step_prerequisiteChecks (w : World) (e : Event) :
  prerequisiteChecks (step w e) = prerequisiteChecks w.
Proof.
  unfold prerequisiteChecks.
  step_cases w e; try reflexivity.
  unfold call; simpl. rewrite filter_app. simpl. rewrite app_nil_r. reflexivity.
Qed.

Lemma run_prerequisiteChecks (events : list Event) (w : World) :
  prerequisiteChecks (run w events) = prerequisiteChecks w.
Proof.
  revert w. induction events as [|e events IH]; intro w.
  - reflexivity.
  - rewrite run_cons, IH. apply step_prerequisiteChecks.
Qed.

(** C5, as the code has it. When the prerequisites check awaited by the
    initialisation resolves with true the state becomes
    [WaitingForClipboardContent], and with false it becomes
    [FFmpegNotFound]. The component asks for the check once, in [ngOnInit],
    and never again whatever happens before or after the check settles.
    After a failed check that found no reset pending, the state stays
    [FFmpegNotFound] through every clipboard change, progress report, lapse
    of time, convert request and teardown, as long as the service reports no
    state through [convertStateChanged$]. *)
Theorem prerequisites_decide_initial_state :
  (forall (w : World) (available : bool),
     awaitingPrerequisites w = true ->
     _convertState (this (checkPrerequisitesAsync (Resolved available) w)) =
       if available then WaitingForClipboardContent else FFmpegNotFound) /\
  _convertState (this (initialised true)) = WaitingForClipboardContent /\
  _convertState (this (initialised false)) = FFmpegNotFound /\
  (forall (available : bool) (events : list Event),
     prerequisiteChecks (run (initialised available) events) = 1) /\
  (forall events : list Event,
     prerequisiteChecks (run (ngOnInit new) events) = 1) /\
  (forall (w : World) (events : list Event),
     awaitingPrerequisites w = true ->
     pending (delayer w) = [] ->
     forallb (fun e => negb (isConvertStateEvent e)) events = true ->
     _convertState (this (run (checkPrerequisitesAsync (Resolved false) w) events))
       = FFmpegNotFound).
Proof.
  split; [|split; [|split; [|split; [|split]]]].
  - intros w available Hawait. unfold checkPrerequisitesAsync. rewrite Hawait.
    destruct available; reflexivity.
  - reflexivity.
  - reflexivity.
  - intros available events. rewrite run_prerequisiteChecks.
    destruct available; reflexivity.
  - intro events. rewrite run_prerequisiteChecks. reflexivity.
  - intros w events Hawait Hpending Hev.
    apply run_keeps_idle; [exact Hev | | | ];
      unfold checkPrerequisitesAsync; rewrite Hawait; simpl;
      [reflexivity | exact Hpending | reflexivity].
Qed.

(** *** The download URL *)

Lemma step_keeps_urlInvariant (w : World) (e : Event) :
  reportsConversion e = true ->
  urlInvariant w = true ->
  awaitingPrerequisites w = false ->
  urlInvariant (step w e) = true /\ awaitingPrerequisites (step w e) = false.
Proof.
  intros He Hinv Hawait.
  destruct e as [s | p | text | settled | ms | | ]; simpl.
  - destruct (subscribed convertStateChanged_ w); [|auto].
    unfold handleConvertStateChanged, urlInvariant.
    destruct s; try discriminate He; simpl; rewrite Hawait, orb_true_r; auto.
  - destruct (subscribed convertProgressChanged_ w); auto.
  - destruct (subscribed clipboardContentChanged_ w); [|auto].
    unfold ConvertComponent.handleClipboardContentChanged.
    destruct (negb _ && negb _); [auto|].
    destruct (ConvertService.isVideoUrlConvertible youtubeLinks text); simpl.
    + unfold urlInvariant; simpl. rewrite orb_true_r. auto.
    + auto.
  - unfold checkPrerequisitesAsync. rewrite Hawait. auto.
  - split; [|exact Hawait].
    unfold urlInvariant in *.
    destruct (this_elapse ms w) as [-> | ->]; [exact Hinv | reflexivity].
  - auto.
  - auto.
Qed.

Lemma run_keeps_urlInvariant (events : list Event) (w : World) :
  forallb reportsConversion events = true ->
  urlInvariant w = true ->
  awaitingPrerequisites w = false ->
  urlInvariant (run w events) = true.
Proof.
  revert w. induction events as [|e events IH]; intros w Hev Hinv Hawait.
  - exact Hinv.
  - simpl in Hev. apply andb_true_iff in Hev. destruct Hev as [He Hev].
    destruct (step_keeps_urlInvariant w e He Hinv Hawait) as [H1 H2].
    rewrite run_cons. now apply IH.
Qed.

(** C6, as the code has it. Take a component whose initialisation ran to
    its end before any event reached it, and let the service report only
    [Converting], [Successful] or [Failed]. Then through every sequence of
    events [downloadUrl] is non-empty only in the states
    [HasValidClipboardContent], [Converting], [Successful] and [Failed]; and
    every reset leaves [downloadUrl] empty. *)
Theorem downloadUrl_invariant_after_initialisation :
  (forall (available : bool) (events : list Event),
     forallb reportsConversion events = true ->
     let w := run (initialised available) events in
     _downloadUrl (this w) <> "" -> mayHoldUrl (_convertState (this w)) = true) /\
  (forall f : Fields, _downloadUrl (resetState f) = "").
Proof.
  split; [|reflexivity].
  intros available events Hev w Hurl.
  assert (Hinv : urlInvariant w = true).
  { apply run_keeps_urlInvariant; [exact Hev | | ]; destruct available; reflexivity. }
  unfold urlInvariant in Hinv. apply orb_true_iff in Hinv.
  destruct Hinv as [Hempty | Hstate]; [|exact Hstate].
  apply String.eqb_eq in Hempty. contradiction.
Qed.

(** *** Teardown *)

(** C9, as the code has it. [ngOnDestroy] releases the three subscriptions
    and leaves the delayer alone. After it no emission of the three streams
    changes anything; a reset that was pending is still pending, and when
    its time has come it runs: [convertState] becomes
    [WaitingForClipboardContent], [progressPercent] 0 and [downloadUrl]
    empty. *)
Theorem teardown_keeps_pending_reset (w : World) :
  let w' := ngOnDestroy w in
  subscription (this w') = [] /\
  delayer w' = delayer w /\
  (forall e : Event, isEmission e = true -> step w' e = w') /\
  (forall (t ms : nat),
     In (t, callResetState) (pending (delayer w)) ->
     t <= now (delayer w) + ms ->
     _convertState (this (elapse ms w')) = WaitingForClipboardContent /\
     _progressPercent (this (elapse ms w')) = 0%Z /\
     _downloadUrl (this (elapse ms w')) = "").
Proof.
  intro w'. split; [reflexivity|]. split; [reflexivity|]. split.
  - intros e He. destruct e; try discriminate He; reflexivity.
  - intros t ms Hin Hdue.
    destruct (elapse_due ms t callResetState w' Hin Hdue) as [Hfields _].
    rewrite Hfields. repeat split.
Qed.

End Lifecycle.

(** *** The component on concrete runs *)

Import ConvertComponent.

(** The scenario of the spec: the sample URL reaches a waiting component. *)
Lemma clipboard_change_while_listening_witness :
  let w' := handleClipboardContentChanged sampleLinks ConvertService.sampleUrl
              (initialised true) in
  (_convertState (this (initialised true)) = WaitingForClipboardContent /\
   ConvertService.isVideoUrlConvertible sampleLinks ConvertService.sampleUrl = true) /\
  _convertState (this w') = HasValidClipboardContent /\
  _downloadUrl (this w') = ConvertService.sampleUrl.
Proof.
  split; [split; reflexivity|].
  exact (proj1 (clipboard_change_while_listening sampleLinks ConvertService.sampleUrl
                  (initialised true) (or_introl eq_refl)) eq_refl).
Defined.

(** A link copied while the component shows [Failed]. *)
Lemma clipboard_change_ignored_elsewhere_witness :
  let w := handleConvertStateChanged Failed (initialised true) in
  let w' := handleClipboardContentChanged sampleLinks ConvertService.sampleUrl w in
  _convertState (this w) = Failed /\
  _convertState (this w') = Failed /\
  _downloadUrl (this w') = "" /\
  w' = w.
Proof.
  split; [reflexivity|].
  apply (clipboard_change_ignored_elsewhere sampleLinks ConvertService.sampleUrl
           (handleConvertStateChanged Failed (initialised true)));
    simpl; discriminate.
Defined.

(** A failed conversion reported to an idle component: [Failed] one
    millisecond before the delay is over, reset when it is. *)
Lemma terminal_state_schedules_one_reset_witness :
  let w' := handleConvertStateChanged Failed (initialised true) in
  pending (delayer w') = [(3000, callResetState)] /\
  _convertState (this (elapse 2999 w')) = Failed /\
  _convertState (this (elapse 3000 w')) = WaitingForClipboardContent /\
  pending (delayer (elapse 3000 w')) = [].
Proof.
  destruct (terminal_state_schedules_one_reset Failed (initialised true)
              (or_intror eq_refl))
    as (Hstate & Hpending & Hbefore & Hafter).
  split; [exact Hpending|]. split; [|split].
  - rewrite (proj2 (Hbefore 2999 ltac:(lia)) eq_refl). exact Hstate.
  - exact (proj1 (Hafter 3000 ltac:(lia))).
  - reflexivity.
Defined.

(** After a failed prerequisites check: a link is copied, five seconds go
    by, a progress report arrives, the user asks for a conversion, the view
    is torn down. *)
Lemma prerequisites_decide_initial_state_witness :
  let events := [Emit_clipboardContentChanged ConvertService.sampleUrl;
                 Elapse 5000;
                 Emit_convertProgressChanged 45;
                 PerformConvert;
                 NgOnDestroy] in
  (awaitingPrerequisites (ngOnInit new) = true /\
   pending (delayer (ngOnInit new)) = [] /\
   forallb (fun e => negb (isConvertStateEvent e)) events = true) /\
  _convertState (this (run sampleLinks (initialised false) events)) = FFmpegNotFound /\
  prerequisiteChecks (run sampleLinks (initialised false) events) = 1 /\
  _convertState (this (checkPrerequisitesAsync (Resolved true) (ngOnInit new)))
    = WaitingForClipboardContent.
Proof.
  destruct (prerequisites_decide_initial_state sampleLinks)
    as (Hsettle & _ & _ & Hchecks & _ & Hstays).
  split; [repeat split|]. split; [|split].
  - exact (Hstays (ngOnInit new)
             [Emit_clipboardContentChanged ConvertService.sampleUrl;
              Elapse 5000;
              Emit_convertProgressChanged 45;
              PerformConvert;
              NgOnDestroy] eq_refl eq_refl eq_refl).
  - apply Hchecks.
  - exact (Hsettle (ngOnInit new) true eq_refl).
Defined.

(** C5 fails on the code in two ways. After a failed check the
    convert-state handler still takes whatever state the service reports,
    here [Converting]. And a failure reported while [ngOnInit] still awaits
    the check leaves a reset pending: the check then sets [FFmpegNotFound],
    and 3000 ms later the reset replaces it by
    [WaitingForClipboardContent]. In neither run is the check asked for
    again. *)
Lemma prerequisites_counterexample :
  (let w := run sampleLinks (initialised false) [Emit_convertStateChanged Converting] in
   _convertState (this (initialised false)) = FFmpegNotFound /\
   _convertState (this w) = Converting /\
   prerequisiteChecks w = 1) /\
  (let w := run sampleLinks (ngOnInit new)
              [Emit_convertStateChanged Failed; PrerequisitesSettled (Resolved false)] in
   _convertState (this w) = FFmpegNotFound /\
   _convertState (this (step sampleLinks w (Elapse 3000))) = WaitingForClipboardContent /\
   prerequisiteChecks (step sampleLinks w (Elapse 3000)) = 1).
Proof. repeat split. Qed.

(** C6 fails on the code in two ways. A link copied while [ngOnInit] still
    awaits the prerequisites check is taken as [downloadUrl]; when the check
    then resolves, the state is set to [WaitingForClipboardContent] and the
    URL stays. And the convert-state handler takes whatever state the
    service reports, here [FFmpegNotFound], without touching the URL. *)
Lemma downloadUrl_invariant_counterexample :
  (let w := run sampleLinks (ngOnInit new)
              [Emit_clipboardContentChanged ConvertService.sampleUrl;
               PrerequisitesSettled (Resolved true)] in
   _downloadUrl (this w) = ConvertService.sampleUrl /\
   _convertState (this w) = WaitingForClipboardContent /\
   urlInvariant w = false) /\
  (let w := run sampleLinks (initialised true)
              [Emit_clipboardContentChanged ConvertService.sampleUrl;
               Emit_convertStateChanged FFmpegNotFound] in
   _downloadUrl (this w) = ConvertService.sampleUrl /\
   _convertState (this w) = FFmpegNotFound /\
   urlInvariant w = false).
Proof. repeat split. Qed.

(** A link is copied, the conversion starts: the URL is kept while the
    state is [Converting]. *)
Lemma downloadUrl_invariant_after_initialisation_witness :
  let events := [Emit_clipboardContentChanged ConvertService.sampleUrl;
                 PerformConvert;
                 Emit_convertStateChanged Converting;
                 Emit_convertProgressChanged 45] in
  let w := run sampleLinks (initialised true) events in
  (forallb reportsConversion events = true /\
   _downloadUrl (this w) = ConvertService.sampleUrl) /\
  mayHoldUrl (_convertState (this w)) = true.
Proof.
  split; [split; reflexivity|].
  apply (proj1 (downloadUrl_invariant_after_initialisation sampleLinks) true
           [Emit_clipboardContentChanged ConvertService.sampleUrl;
            PerformConvert;
            Emit_convertStateChanged Converting;
            Emit_convertProgressChanged 45]).
  - reflexivity.
  - simpl. discriminate.
Defined.

(** C9 fails on the code. A conversion fails, one second later the view is
    torn down; the reset is still pending, and two seconds after the
    teardown it runs and takes the state from [Failed] to
    [WaitingForClipboardContent]. *)
Lemma teardown_counterexample :
  let w := run sampleLinks (initialised true)
             [Emit_convertStateChanged Failed; Elapse 1000; NgOnDestroy] in
  subscription (this w) = [] /\
  now (delayer w) = 1000 /\
  pending (delayer w) = [(3000, callResetState)] /\
  _convertState (this w) = Failed /\
  _convertState (this (step sampleLinks w (Elapse 2000))) = WaitingForClipboardContent /\
  this (step sampleLinks w (Elapse 2000)) <> this w.
Proof. repeat split. simpl. discriminate. Qed.

(** The same run, through the theorem. *)
Lemma teardown_keeps_pending_reset_witness :
  let w := run sampleLinks (initialised true)
             [Emit_convertStateChanged Failed; Elapse 1000] in
  (In (3000, callResetState) (pending (delayer w)) /\ 3000 <= now (delayer w) + 2000) /\
  step sampleLinks (ngOnDestroy w) (Emit_clipboardContentChanged ConvertService.sampleUrl)
    = ngOnDestroy w /\
  _convertState (this (elapse 2000 (ngOnDestroy w))) = WaitingForClipboardContent.
Proof.
  destruct (teardown_keeps_pending_reset sampleLinks
              (run sampleLinks (initialised true)
                 [Emit_convertStateChanged Failed; Elapse 1000]))
    as (_ & _ & Hdeaf & Hruns).
  split; [split; [left; reflexivity | simpl; lia]|]. split.
  - apply Hdeaf. reflexivity.
  - exact (proj1 (Hruns 3000 2000 (or_introl eq_refl) ltac:(simpl; lia))).
Defined.

(* ===================================================================== *)
(** * Further properties of the service *)
(* ===================================================================== *)

Section TextFacts.

Lemma string_app_assoc (a b c : string) : (a ++ b) ++ c = a ++ (b ++ c).
Proof.
  induction a as [|ch a IH]; simpl; [reflexivity | now rewrite IH].
Qed.

Lemma chars_app (a b : string) :
  list_ascii_of_string (a ++ b) = (list_ascii_of_string a ++ list_ascii_of_string b)%list.
Proof.
  induction a as [|ch a IH]; simpl; [reflexivity | now rewrite IH].
Qed.

Variable youtubeLinks : list string.

(** X1. A text that contains a convertible text is convertible: what
    surrounds the link in the clipboard does not matter. *)
Theorem isVideoUrlConvertible_embedded (s pre post : string) :
  ConvertService.isVideoUrlConvertible youtubeLinks s = true ->
  ConvertService.isVideoUrlConvertible youtubeLinks (pre ++ s ++ post) = true.
Proof.
  unfold ConvertService.isVideoUrlConvertible, Js.some.
  destruct (Strings.isNullOrWhiteSpace s) eqn:Hblank; simpl; [discriminate|].
  intro Hsome.
  assert (Hwide : Strings.isNullOrWhiteSpace (pre ++ s ++ post) = false).
  { apply not_blank_spec. apply not_blank_spec in Hblank.
    destruct Hblank as (c & Hin & Hc). exists c. split; [|exact Hc].
    rewrite !chars_app. apply in_or_app. right. apply in_or_app. now left. }
  rewrite Hwide. simpl.
  apply existsb_exists in Hsome. destruct Hsome as (x & Hin & Hx).
  apply existsb_exists. exists x. split; [exact Hin|].
  apply includes_spec in Hx. destruct Hx as (a & b & ->).
  apply includes_spec. exists (pre ++ a), (b ++ post).
  now rewrite !string_app_assoc.
Qed.

End TextFacts.

Lemma isVideoUrlConvertible_embedded_witness :
  ConvertService.isVideoUrlConvertible sampleLinks "youtu.be/abc" = true /\
  ConvertService.isVideoUrlConvertible sampleLinks
    ("see https://" ++ "youtu.be/abc" ++ " tonight") = true.
Proof.
  split; [reflexivity|].
  exact (isVideoUrlConvertible_embedded sampleLinks "youtu.be/abc" "see https://" " tonight"
           eq_refl).
Defined.

Section ConvertAsyncOutcomes.

Variable fileSystem : ConvertService.FileSystem.
Variable ffmpegChecker youtubeDlChecker : ConvertService.DependencyChecker.
Variable create : string -> ConvertService.VideoConverter.

Local Abbreviation convertAsync :=
  (ConvertService.convertAsync fileSystem ffmpegChecker youtubeDlChecker create).
Local Abbreviation awaited :=
  (Preparation.awaited fileSystem ffmpegChecker youtubeDlChecker).
Local Abbreviation requestMade := (ConvertService.requestMade ffmpegChecker youtubeDlChecker).
Local Abbreviation convertEach :=
  (Preparation.convertEach fileSystem ffmpegChecker youtubeDlChecker create).

(** [convertAsync] in full: a rejection among the three first awaits is
    thrown with nothing changed; otherwise the converter decides. *)
Lemma convertAsync_run (videoUrl : string) (w : ConvertService.World) :
  convertAsync videoUrl w =
  match awaited (ConvertService.outputDirectory (ConvertService.this w)) with
  | Rejected e => (Rejected e, w)
  | Resolved (inPathF, inPathY) =>
      let request := requestMade videoUrl w inPathF inPathY in
      let conversion := ConvertService.converter_convertAsync (create videoUrl) request in
      (snd conversion,
       {| ConvertService.this :=
            ConvertService.recorded fileSystem (snd conversion)
              (ConvertService.report (fst conversion) (ConvertService.this w));
          ConvertService.converterCalls :=
            (ConvertService.converterCalls w ++ [request])%list |})
  end.
Proof.
  unfold Preparation.awaited.
  destruct (ConvertService.ensureDirectoryAsync fileSystem
              (ConvertService.outputDirectory (ConvertService.this w)))
    as [[]|e1] eqn:Hdir.
  2:{ unfold ConvertService.convertAsync, ConvertService.bind, ConvertService.read,
        ConvertService.await. rewrite Hdir. reflexivity. }
  destruct (ConvertService.isDependencyInSystemPathAsync ffmpegChecker)
    as [inPathF|e2] eqn:HF.
  2:{ unfold ConvertService.convertAsync, ConvertService.bind, ConvertService.read,
        ConvertService.await. rewrite Hdir, HF. reflexivity. }
  destruct (ConvertService.isDependencyInSystemPathAsync youtubeDlChecker)
    as [inPathY|e3] eqn:HY.
  2:{ unfold ConvertService.convertAsync, ConvertService.bind, ConvertService.read,
        ConvertService.await. rewrite Hdir, HF, HY. reflexivity. }
  apply convertAsync_resolved; assumption.
Qed.

Lemma report_subject (reported : list Z) (f : ConvertService.Fields) :
  ConvertService.conversionProgressChanged (ConvertService.report reported f) =
  (ConvertService.conversionProgressChanged f ++ reported)%list.
Proof.
  revert f. induction reported as [|p ps IH]; intro f; simpl.
  - now rewrite app_nil_r.
  - unfold ConvertService.report in IH. rewrite IH. simpl.
    now rewrite <- app_assoc.
Qed.

Lemma recorded_frame (settled : Outcome ConvertService.ConversionResult)
  (f : ConvertService.Fields) :
  ConvertService.outputDirectory (ConvertService.recorded fileSystem settled f)
    = ConvertService.outputDirectory f /\
  ConvertService.conversionProgressChanged (ConvertService.recorded fileSystem settled f)
    = ConvertService.conversionProgressChanged f /\
  ConvertService._selectedAudioFormat (ConvertService.recorded fileSystem settled f)
    = ConvertService._selectedAudioFormat f /\
  ConvertService._selectedAudioBitrate (ConvertService.recorded fileSystem settled f)
    = ConvertService._selectedAudioBitrate f.
Proof.
  destruct settled as [r|e]; simpl; [|repeat split].
  destruct (ConvertService.isConversionSuccessful r); repeat split.
Qed.

(** X2. The converter is called exactly when the output directory was
    ensured and both system-path checks resolved, and then once, for the
    given URL. When one of the three is rejected, [convertAsync] throws that
    rejection and leaves the service and the record of converter calls as
    they were. *)
Theorem convertAsync_converts_iff_prepared (videoUrl : string) (w : ConvertService.World) :
  let dir := ConvertService.outputDirectory (ConvertService.this w) in
  ((exists request,
      ConvertService.converterCalls (snd (convertAsync videoUrl w))
        = (ConvertService.converterCalls w ++ [request])%list /\
      ConvertService.req_videoUrl request = videoUrl)
   <-> exists answers, awaited dir = Resolved answers) /\
  (forall e, awaited dir = Rejected e -> convertAsync videoUrl w = (Rejected e, w)).
Proof.
  intro dir. rewrite convertAsync_run. fold dir.
  destruct (awaited dir) as [[inPathF inPathY]|e]; simpl.
  - split; [|discriminate]. split.
    + intros _. now exists (inPathF, inPathY).
    + intros _. exists (requestMade videoUrl w inPathF inPathY). split; reflexivity.
  - split.
    + split.
      * intros (request & Hcalls & _). exfalso.
        apply (f_equal (@length _)) in Hcalls. rewrite length_app in Hcalls.
        simpl in Hcalls. lia.
      * intros (answers & Habs). discriminate.
    + intros e' He'. now inversion He'.
Qed.

(** X3. The percentages that reach [conversionProgressChanged] during a
    call are those the converter reported, in its order and unchanged,
    whether the conversion then succeeds, fails or throws; a call that
    throws before converting emits nothing. *)
Theorem convertAsync_relays_progress (videoUrl : string) (w : ConvertService.World) :
  ConvertService.conversionProgressChanged
    (ConvertService.this (snd (convertAsync videoUrl w))) =
  (ConvertService.conversionProgressChanged (ConvertService.this w) ++
   match awaited (ConvertService.outputDirectory (ConvertService.this w)) with
   | Resolved (inPathF, inPathY) =>
       fst (ConvertService.converter_convertAsync (create videoUrl)
              (requestMade videoUrl w inPathF inPathY))
   | Rejected _ => []
   end)%list.
Proof.
  rewrite convertAsync_run.
  destruct (awaited _) as [[inPathF inPathY]|e]; simpl.
  - destruct (recorded_frame
                (snd (ConvertService.converter_convertAsync (create videoUrl)
                        (requestMade videoUrl w inPathF inPathY)))
                (ConvertService.report
                   (fst (ConvertService.converter_convertAsync (create videoUrl)
                           (requestMade videoUrl w inPathF inPathY)))
                   (ConvertService.this w))) as (_ & -> & _).
    apply report_subject.
  - now rewrite app_nil_r.
Qed.


(** Every call leaves the output directory and the selected format and
    bitrate alone. *)
Lemma convertAsync_frame (videoUrl : string) (w : ConvertService.World) :
  let final := ConvertService.this (snd (convertAsync videoUrl w)) in
  ConvertService.outputDirectory final = ConvertService.outputDirectory (ConvertService.this w) /\
  ConvertService._selectedAudioFormat final
    = ConvertService._selectedAudioFormat (ConvertService.this w) /\
  ConvertService._selectedAudioBitrate final
    = ConvertService._selectedAudioBitrate (ConvertService.this w).
Proof.
  intro final. subst final. rewrite convertAsync_run.
  destruct (awaited _) as [[inPathF inPathY]|e]; simpl; [|repeat split].
  destruct (recorded_frame
              (snd (ConvertService.converter_convertAsync (create videoUrl)
                      (requestMade videoUrl w inPathF inPathY)))
              (ConvertService.report
                 (fst (ConvertService.converter_convertAsync (create videoUrl)
                         (requestMade videoUrl w inPathF inPathY)))
                 (ConvertService.this w))) as (-> & _ & -> & ->).
  destruct (report_frame
              (fst (ConvertService.converter_convertAsync (create videoUrl)
                      (requestMade videoUrl w inPathF inPathY)))
              (ConvertService.this w)) as (-> & _ & _ & -> & ->).
  repeat split.
Qed.

Lemma convertAsync_calls (videoUrl : string) (w : ConvertService.World) :
  ConvertService.converterCalls (snd (convertAsync videoUrl w)) = ConvertService.converterCalls w \/
  exists inPathF inPathY,
    ConvertService.converterCalls (snd (convertAsync videoUrl w))
      = (ConvertService.converterCalls w ++ [requestMade videoUrl w inPathF inPathY])%list.
Proof.
  rewrite convertAsync_run.
  destruct (awaited _) as [[inPathF inPathY]|e]; simpl; [right | left; reflexivity].
  now exists inPathF, inPathY.
Qed.

Lemma isSubsequence_skip (xs ys : list string) (y : string) :
  Preparation.isSubsequence xs ys = true ->
  Preparation.isSubsequence xs (y :: ys) = true.
Proof.
  intro H. destruct xs as [|x xs]; [reflexivity|].
  cbn [Preparation.isSubsequence]. rewrite H. apply orb_true_r.
Qed.

Lemma isSubsequence_take (xs ys : list string) (y : string) :
  Preparation.isSubsequence xs ys = true ->
  Preparation.isSubsequence (y :: xs) (y :: ys) = true.
Proof.
  intro H. cbn [Preparation.isSubsequence]. now rewrite String.eqb_refl, H.
Qed.

(** What a run of conversions adds to the record of converter calls: at
    most one request for each call, for the URL of that call, carrying the
    configuration the run started with. *)
Lemma convertEach_adds (w : ConvertService.World) (urls : list string) :
  forall w0 : ConvertService.World,
    ConvertService.outputDirectory (ConvertService.this w0)
      = ConvertService.outputDirectory (ConvertService.this w) ->
    ConvertService._selectedAudioFormat (ConvertService.this w0)
      = ConvertService._selectedAudioFormat (ConvertService.this w) ->
    ConvertService._selectedAudioBitrate (ConvertService.this w0)
      = ConvertService._selectedAudioBitrate (ConvertService.this w) ->
    exists added,
      ConvertService.converterCalls (convertEach urls w0)
        = (ConvertService.converterCalls w0 ++ added)%list /\
      Preparation.isSubsequence (map ConvertService.req_videoUrl added) urls = true /\
      forall request, In request added ->
        ConvertService.req_outputDirectory request
          = ConvertService.outputDirectory (ConvertService.this w) /\
        ConvertService.req_audioFormat request
          = ConvertService._selectedAudioFormat (ConvertService.this w) /\
        ConvertService.req_audioBitrate request
          = ConvertService._selectedAudioBitrate (ConvertService.this w).
Proof.
  induction urls as [|url rest IH]; intros w0 Hdir Hformat Hrate.
  - exists []. split; [now rewrite app_nil_r|]. split; [reflexivity|]. intros request [].
  - unfold Preparation.convertEach in *. cbn [fold_left].
    destruct (convertAsync_frame url w0) as (Hdir' & Hformat' & Hrate').
    destruct (IH (snd (convertAsync url w0))) as (added & Hcalls & Hsub & Hcarry);
      [congruence | congruence | congruence |].
    destruct (convertAsync_calls url w0) as [Hsame | (inPathF & inPathY & Hmore)].
    + exists added. rewrite Hcalls, Hsame. split; [reflexivity|].
      split; [now apply isSubsequence_skip | exact Hcarry].
    + exists (requestMade url w0 inPathF inPathY :: added).
      rewrite Hcalls, Hmore, <- app_assoc. split; [reflexivity|]. split.
      * cbn [map]. change (ConvertService.req_videoUrl (requestMade url w0 inPathF inPathY))
          with url. now apply isSubsequence_take.
      * intros request [<- | Hin]; [|now apply Hcarry].
        simpl. repeat split; assumption.
Qed.

Lemma isSubsequence_length (xs ys : list string) :
  Preparation.isSubsequence xs ys = true -> length xs <= length ys.
Proof.
  revert xs. induction ys as [|y ys IH]; intros [|x xs] H; simpl; try lia.
  - discriminate H.
  - cbn [Preparation.isSubsequence] in H. apply orb_true_iff in H.
    destruct H as [H | H].
    + apply andb_true_iff in H. destruct H as [_ H]. apply IH in H. lia.
    + apply IH in H. simpl in H. lia.
Qed.

Lemma isSubsequence_In (xs ys : list string) (x : string) :
  Preparation.isSubsequence xs ys = true -> In x xs -> In x ys.
Proof.
  revert xs. induction ys as [|y ys IH]; intros xs H Hin.
  - destruct xs as [|a xs]; [destruct Hin | discriminate H].
  - destruct xs as [|a xs]; [destruct Hin|].
    cbn [Preparation.isSubsequence] in H. apply orb_true_iff in H.
    destruct H as [H | H].
    + apply andb_true_iff in H. destruct H as [Heq H].
      apply String.eqb_eq in Heq. subst y.
      destruct Hin as [<- | Hin]; [now left | right; now apply (IH xs)].
    + right. now apply (IH (a :: xs)).
Qed.


End ConvertAsyncOutcomes.

(** *** The dependency methods *)

Section DownloadFacts.

Import DependencyMethods.

Variable injected : Injected.

(** X6. [downloadFfmpegAsync] consults the ffmpeg checker and no other. It
    asks the ffmpeg downloader for a download exactly when that check
    resolves with false, once, into the folder the ffmpeg checker names, and
    never asks the youtube-dl downloader or the updater for anything. It
    logs the start exactly when it asks for the download, and the end
    exactly when that download resolved; and it resolves exactly when ffmpeg
    was available or that download resolved. *)
Theorem downloadFfmpegAsync_only_when_missing :
  let run := downloadFfmpegAsync injected [] in
  let available := ConvertService.isDependencyAvailableAsync (ffmpegChecker injected) in
  let folder := ConvertService.downloadedDependencyFolder (ffmpegChecker injected) in
  let download := ffmpegDownloader injected folder in
  requestedFfmpegDownloads (snd run)
    = match available with
      | Resolved false => [folder]
      | _ => []
      end /\
  requestedYoutubeDlDownloads (snd run) = [] /\
  requestedUpdates (snd run) = [] /\
  (logged "Start downloading FFmpeg." (snd run) = true <-> available = Resolved false) /\
  (logged "Finished downloading FFmpeg." (snd run) = true
   <-> available = Resolved false /\ download = Resolved tt) /\
  (fst run = Resolved tt
   <-> available = Resolved true \/ (available = Resolved false /\ download = Resolved tt)).
Proof.
  unfold downloadFfmpegAsync, bind, await, perform, ret. simpl.
  destruct (ConvertService.isDependencyAvailableAsync (ffmpegChecker injected))
    as [[|]|e]; simpl.
  - repeat split; try discriminate; auto.
    intros [H _]; discriminate.
  - destruct (ffmpegDownloader injected
                (ConvertService.downloadedDependencyFolder (ffmpegChecker injected)))
      as [[]|e]; simpl.
    + repeat split; auto.
    + repeat split; try discriminate; auto.
      * intros [_ H]; discriminate.
      * intros [H | [_ H]]; discriminate.
  - repeat split; try discriminate.
    + intros [H _]; discriminate.
    + intros [H | [H _]]; discriminate.
Qed.

(** X7. [downloadYoutubeDlAsync] consults the youtube-dl checker and no
    other. It asks the youtube-dl downloader for a download exactly when
    that check resolves with false, once, into the folder the youtube-dl
    checker names, and never asks the ffmpeg downloader or the updater for
    anything. It logs the start exactly when it asks for the download, and
    the end exactly when that download resolved; and it resolves exactly
    when youtube-dl was available or that download resolved. *)
Theorem downloadYoutubeDlAsync_only_when_missing :
  let run := downloadYoutubeDlAsync injected [] in
  let available := ConvertService.isDependencyAvailableAsync (youtubeDlChecker injected) in
  let folder := ConvertService.downloadedDependencyFolder (youtubeDlChecker injected) in
  let download := youtubeDlDownloader injected folder in
  requestedYoutubeDlDownloads (snd run)
    = match available with
      | Resolved false => [folder]
      | _ => []
      end /\
  requestedFfmpegDownloads (snd run) = [] /\
  requestedUpdates (snd run) = [] /\
  (logged "Start downloading Youtube-dl." (snd run) = true <-> available = Resolved false) /\
  (logged "Finished downloading Youtube-dl." (snd run) = true
   <-> available = Resolved false /\ download = Resolved tt) /\
  (fst run = Resolved tt
   <-> available = Resolved true \/ (available = Resolved false /\ download = Resolved tt)).
Proof.
  unfold downloadYoutubeDlAsync, bind, await, perform, ret. simpl.
  destruct (ConvertService.isDependencyAvailableAsync (youtubeDlChecker injected))
    as [[|]|e]; simpl.
  - repeat split; try discriminate; auto.
    intros [H _]; discriminate.
  - destruct (youtubeDlDownloader injected
                (ConvertService.downloadedDependencyFolder (youtubeDlChecker injected)))
      as [[]|e]; simpl.
    + repeat split; auto.
    + repeat split; try discriminate; auto.
      * intros [_ H]; discriminate.
      * intros [H | [_ H]]; discriminate.
  - repeat split; try discriminate.
    + intros [H _]; discriminate.
    + intros [H | [H _]]; discriminate.
Qed.

End DownloadFacts.

Section DependencyFacts.

Import DependencyMethods.

Variable checker : ConvertService.DependencyChecker.
Variable updater : string -> Outcome unit.

Local Abbreviation downloaded := (ConvertService.getPathOfDownloadedDependency checker).

(** X8. [updateYoutubeDl] calls the updater exactly when the checker names
    a downloaded copy, that is when some character of the path it reports
    is not whitespace, and then once, with that path; with an empty or blank
    path, the case of a youtube-dl that is not the application's own,
    nothing is called and nothing is logged. *)
Theorem updateYoutubeDl_only_own_copy :
  let run := updateYoutubeDl checker updater [] in
  ((exists c, In c (list_ascii_of_string downloaded) /\ Js.isWhiteSpace c = false)
   <-> requestedUpdates (snd run) = [downloaded]) /\
  ((forall c, In c (list_ascii_of_string downloaded) -> Js.isWhiteSpace c = true)
   <-> run = (Resolved tt, [])) /\
  (logged "Finished updating Youtube-dl." (snd run) = true
   <-> Strings.isNullOrWhiteSpace downloaded = false /\ updater downloaded = Resolved tt).
Proof.
  unfold updateYoutubeDl, bind, perform, ret. simpl.
  rewrite <- not_blank_spec, <- isNullOrWhiteSpace_spec.
  destruct (Strings.isNullOrWhiteSpace downloaded); simpl.
  - split; [|split]; split; try discriminate; auto.
    intros [H _]; discriminate.
  - destruct (updater downloaded) as [[]|e]; simpl.
    + split; [|split]; split; try discriminate; auto.
    + split; [|split]; split; try discriminate; auto.
      intros [_ H]; discriminate.
Qed.

End DependencyFacts.

(** *** The selection and the settings *)

Section ConfigurationFacts.

Import Configuration.

Variable audioFormats : list ConvertService.AudioFormat.
Variable audioBitrates : list Z.
Variable pathJoin : string -> string -> string.
Variable fileSystem : ConvertService.FileSystem.

Local Abbreviation construct := (Configuration.construct audioFormats audioBitrates pathJoin fileSystem).

(** X9. A new service selects the first listed format whose id is the one
    in the settings and the bitrate of the settings when it is listed; when
    the settings name a format or a bitrate that is not listed, the
    selection is undefined: there is no default. *)
Theorem construct_selects_from_settings (s : Settings) :
  let fields := service (construct s) in
  (forall v, ConvertService._selectedAudioFormat fields = Some v ->
     In v audioFormats /\ ConvertService.id v = audioFormat s) /\
  (ConvertService._selectedAudioFormat fields = None
   <-> forall v, In v audioFormats -> ConvertService.id v <> audioFormat s) /\
  (ConvertService._selectedAudioBitrate fields = Some (audioBitrate s)
   <-> In (audioBitrate s) audioBitrates) /\
  (ConvertService._selectedAudioBitrate fields = None
   <-> ~ In (audioBitrate s) audioBitrates).
Proof.
  simpl. split; [|split; [|split]].
  - intros v Hfound. apply find_some in Hfound. destruct Hfound as [Hin Heq].
    split; [exact Hin | now apply String.eqb_eq].
  - split.
    + intros Hnone v Hin Heq.
      pose proof (find_none _ _ Hnone v Hin) as Hne. simpl in Hne.
      apply String.eqb_neq in Hne. contradiction.
    + intro Hall. destruct (find _ audioFormats) as [v|] eqn:Hfound; [|reflexivity].
      apply find_some in Hfound. destruct Hfound as [Hin Heq].
      apply String.eqb_eq in Heq. destruct (Hall v Hin Heq).
  - split.
    + intro Hfound. apply find_some in Hfound. tauto.
    + intro Hin. destruct (find _ audioBitrates) as [v|] eqn:Hfound.
      * apply find_some in Hfound. destruct Hfound as [_ Heq].
        apply Z.eqb_eq in Heq. now subst v.
      * pose proof (find_none _ _ Hfound _ Hin) as Hne. simpl in Hne.
        rewrite Z.eqb_refl in Hne. discriminate.
  - split.
    + intros Hnone Hin. pose proof (find_none _ _ Hnone _ Hin) as Hne. simpl in Hne.
      rewrite Z.eqb_refl in Hne. discriminate.
    + intro Hout. destruct (find _ audioBitrates) as [v|] eqn:Hfound; [|reflexivity].
      apply find_some in Hfound. destruct Hfound as [Hin Heq].
      apply Z.eqb_eq in Heq. subst v. contradiction.
Qed.

Lemma choose_keeps_agreement (c : Configured) (o : Choice) :
  selectionAgrees c = true -> selectionAgrees (choose c o) = true.
Proof.
  unfold selectionAgrees. intro H. apply andb_true_iff in H. destruct H as [Hf Hb].
  destruct o as [v | v | v | v]; simpl.
  - rewrite String.eqb_refl. exact Hb.
  - rewrite Z.eqb_refl, andb_true_r. exact Hf.
  - now rewrite Hf, Hb.
  - now rewrite Hf, Hb.
Qed.

(** X10. From construction on and through every sequence of choices, of a
    format, of a bitrate, of the two checkboxes of the settings component, a
    selected format has the id stored in the settings and a selected bitrate
    is the one stored in the settings. *)
Theorem selection_agrees_with_settings (s : Settings) (choices : list Choice) :
  selectionAgrees (fold_left choose choices (construct s)) = true.
Proof.
  assert (Hstart : selectionAgrees (construct s) = true).
  { unfold selectionAgrees. simpl. apply andb_true_iff. split.
    - destruct (find _ audioFormats) as [v|] eqn:Hfound; [|reflexivity].
      apply find_some in Hfound. tauto.
    - destruct (find _ audioBitrates) as [v|] eqn:Hfound; [|reflexivity].
      apply find_some in Hfound. tauto. }
  revert Hstart. generalize (construct s).
  induction choices as [|o rest IH]; intros c Hc; simpl.
  - exact Hc.
  - apply IH. now apply choose_keeps_agreement.
Qed.

(** X11. A choice survives a restart when it is a listed one: a service
    constructed from the settings that [set selectedAudioFormat(v)] wrote
    selects a listed format with the id of [v], and one constructed from the
    settings that [set selectedAudioBitrate(b)] wrote selects [b]. Neither
    setter touches the two checkboxes. *)
Theorem selection_survives_restart (c : Configured) :
  (forall v, In v audioFormats ->
     exists v',
       ConvertService._selectedAudioFormat
         (service (construct (settings (set_selectedAudioFormat v c)))) = Some v' /\
       In v' audioFormats /\ ConvertService.id v' = ConvertService.id v) /\
  (forall b, In b audioBitrates ->
     ConvertService._selectedAudioBitrate
       (service (construct (settings (set_selectedAudioBitrate b c)))) = Some b) /\
  (forall v b,
     let c' := set_selectedAudioBitrate b (set_selectedAudioFormat v c) in
     useSystemTitleBarChecked c' = useSystemTitleBarChecked c /\
     checkForUpdatesChecked c' = checkForUpdatesChecked c).
Proof.
  split; [|split].
  - intros v Hin. simpl.
    destruct (find (fun x => (ConvertService.id x =? ConvertService.id v)%string) audioFormats)
      as [v'|] eqn:Hfound.
    + exists v'. apply find_some in Hfound. destruct Hfound as [Hin' Heq].
      apply String.eqb_eq in Heq. auto.
    + pose proof (find_none _ _ Hfound v Hin) as Hne. simpl in Hne.
      rewrite String.eqb_refl in Hne. discriminate.
  - intros b Hin. simpl.
    destruct (find (fun x => (x =? b)%Z) audioBitrates) as [b'|] eqn:Hfound.
    + apply find_some in Hfound. destruct Hfound as [_ Heq].
      apply Z.eqb_eq in Heq. now subst b'.
    + pose proof (find_none _ _ Hfound b Hin) as Hne. simpl in Hne.
      rewrite Z.eqb_refl in Hne. discriminate.
  - intros v b c'. split; reflexivity.
Qed.

End ConfigurationFacts.

(* ===================================================================== *)
(** * Further properties of the component *)
(* ===================================================================== *)

Section RunFacts.

Import ConvertComponentActions.

Variable youtubeLinks : list string.

Local Abbreviation handleClipboardContentChanged :=
  (ConvertComponent.handleClipboardContentChanged youtubeLinks).
Local Abbreviation step := (ConvertComponent.step youtubeLinks).
Local Abbreviation run := (ConvertComponent.run youtubeLinks).
Local Abbreviation acceptable := (ConvertComponentActions.acceptable youtubeLinks).

Lemma run_step (w : World) (e : Event) (events : list Event) :
  run w (e :: events) = run (step w e) events.
Proof. reflexivity. Qed.

(** An invariant of single steps is an invariant of runs. *)
Lemma run_invariant (P : World -> Prop) :
  (forall w e, P w -> P (step w e)) ->
  forall events w, P w -> P (run w events).
Proof.
  intros Hstep events. induction events as [|e rest IH]; intros w Hw.
  - exact Hw.
  - rewrite run_step. apply IH. now apply Hstep.
Qed.

Lemma elapse_subscription (ms : nat) (w : World) :
  subscription (this (elapse ms w)) = subscription (this w).
Proof.
  unfold elapse; simpl. rewrite fire_batch. destruct (filter _ _); reflexivity.
Qed.

(** *** The download URL *)

Lemma step_keeps_acceptable (w : World) (e : Event) :
  acceptable (_downloadUrl (this w)) = true /\
  forallb acceptable (convertedUrls w) = true ->
  acceptable (_downloadUrl (this (step w e))) = true /\
  forallb acceptable (convertedUrls (step w e)) = true.
Proof.
  intros [Hurl Hcalls].
  destruct e as [s | p | text | settled | ms | | ]; cbn [ConvertComponent.step].
  - destruct (subscribed convertStateChanged_ w); [|auto].
    unfold handleConvertStateChanged.
    destruct (ConvertState_eqb s Failed || ConvertState_eqb s Successful); auto.
  - destruct (subscribed convertProgressChanged_ w); auto.
  - destruct (subscribed clipboardContentChanged_ w); [|auto].
    unfold ConvertComponent.handleClipboardContentChanged.
    destruct (negb _ && negb _); [auto|].
    destruct (ConvertService.isVideoUrlConvertible youtubeLinks text) eqn:Hok; simpl.
    + split; [|exact Hcalls].
      unfold ConvertComponentActions.acceptable. rewrite Hok. apply orb_true_r.
    + split; [reflexivity | exact Hcalls].
  - unfold checkPrerequisitesAsync.
    destruct (awaitingPrerequisites w); [|auto].
    destruct settled as [[|]|reason]; auto.
  - split; [|exact Hcalls].
    destruct (this_elapse ms w) as [-> | ->]; [exact Hurl | reflexivity].
  - split; [exact Hurl|].
    unfold convertedUrls, performConvert, call; simpl.
    rewrite flat_map_app, forallb_app. simpl.
    unfold convertedUrls in Hcalls. now rewrite Hcalls, Hurl.
  - auto.
Qed.

(** X12. Whatever happens to a component, in whatever order, [downloadUrl]
    is empty or a text that [isVideoUrlConvertible] accepts, and so is every
    URL that [performConvert] has handed to [convertAsync]. *)
Theorem downloadUrl_always_acceptable (events : list Event) :
  let w := run (ngOnInit new) events in
  acceptable (_downloadUrl (this w)) = true /\
  forallb acceptable (convertedUrls w) = true.
Proof.
  apply (run_invariant
           (fun w => acceptable (_downloadUrl (this w)) = true /\
                     forallb acceptable (convertedUrls w) = true)).
  - exact step_keeps_acceptable.
  - split; reflexivity.
Qed.

(** *** Pending resets *)

Lemma step_keeps_settling (w : World) (e : Event) :
  (forall timer, In timer (pending (delayer w)) ->
     now (delayer w) < fst timer <= now (delayer w) + 3000) /\
  (isTerminal (_convertState (this w)) = true -> pending (delayer w) <> []) ->
  (forall timer, In timer (pending (delayer (step w e))) ->
     now (delayer (step w e)) < fst timer <= now (delayer (step w e)) + 3000) /\
  (isTerminal (_convertState (this (step w e))) = true ->
   pending (delayer (step w e)) <> []).
Proof.
  intros [Hbound Hsome].
  destruct e as [s | p | text | settled | ms | | ]; simpl.
  - destruct (subscribed convertStateChanged_ w); [|auto].
    unfold handleConvertStateChanged.
    destruct s; simpl; split; auto; try discriminate.
    + intros timer Hin. apply in_app_or in Hin.
      destruct Hin as [Hin | [<- | []]]; [auto | simpl; lia].
    + intros _ Hnil. now apply app_eq_nil in Hnil.
    + intros timer Hin. apply in_app_or in Hin.
      destruct Hin as [Hin | [<- | []]]; [auto | simpl; lia].
    + intros _ Hnil. now apply app_eq_nil in Hnil.
  - destruct (subscribed convertProgressChanged_ w); auto.
  - destruct (subscribed clipboardContentChanged_ w); [|auto].
    unfold ConvertComponent.handleClipboardContentChanged.
    destruct (negb _ && negb _); [auto|].
    destruct (ConvertService.isVideoUrlConvertible youtubeLinks text); simpl;
      split; auto; discriminate.
  - unfold checkPrerequisitesAsync.
    destruct (awaitingPrerequisites w); [|auto].
    destruct settled as [[|]|reason]; simpl; split; auto; discriminate.
  - split.
    + intros timer Hin. apply filter_In in Hin. destruct Hin as [Hin Hlate].
      apply negb_true_iff in Hlate. unfold isDue in Hlate. apply Nat.leb_gt in Hlate.
      specialize (Hbound timer Hin). lia.
    + rewrite fire_batch.
      destruct (filter (isDue (now (delayer w) + ms)) (pending (delayer w))) eqn:Hfired;
        [|discriminate].
      intro Hterminal. specialize (Hsome Hterminal).
      destruct (pending (delayer w)) as [|x rest]; [contradiction|].
      simpl in Hfired. simpl.
      destruct (isDue (now (delayer w) + ms) x); [discriminate | simpl; discriminate].
  - auto.
  - auto.
Qed.

(** X13. Whatever happened to a component, every reset still pending is due
    within the next 3000 ms, and 3000 ms later with nothing else happening
    no reset is pending and the state is neither [Successful] nor [Failed]:
    the message of a finished conversion never stays. *)
Theorem terminal_state_never_stays (events : list Event) :
  let w := run (ngOnInit new) events in
  (forall timer, In timer (pending (delayer w)) ->
     now (delayer w) < fst timer <= now (delayer w) + 3000) /\
  pending (delayer (elapse 3000 w)) = [] /\
  isTerminal (_convertState (this (elapse 3000 w))) = false.
Proof.
  intro w.
  assert (Hw :
    (forall timer, In timer (pending (delayer w)) ->
       now (delayer w) < fst timer <= now (delayer w) + 3000) /\
    (isTerminal (_convertState (this w)) = true -> pending (delayer w) <> [])).
  { subst w.
    apply (run_invariant
             (fun w => (forall timer, In timer (pending (delayer w)) ->
                          now (delayer w) < fst timer <= now (delayer w) + 3000) /\
                       (isTerminal (_convertState (this w)) = true ->
                        pending (delayer w) <> []))).
    - exact step_keeps_settling.
    - split; [intros timer [] | discriminate]. }
  destruct (step_keeps_settling w (Elapse 3000) Hw) as [_ Hafter].
  destruct Hw as [Hbound _].
  split; [exact Hbound|].
  assert (Hnone : pending (delayer (elapse 3000 w)) = []).
  { unfold elapse; simpl. apply filter_none. intros timer Hin.
    apply negb_false_iff. unfold isDue. apply Nat.leb_le.
    specialize (Hbound timer Hin). lia. }
  split; [exact Hnone|].
  destruct (isTerminal (_convertState (this (elapse 3000 w)))) eqn:Hterminal;
    [|reflexivity].
  simpl in Hafter. destruct (Hafter Hterminal Hnone).
Qed.

(** X14. Resets are not re-armed. When a second conversion ends less than
    3000 ms after a first one, the reset scheduled for the first clears the
    state of the second when the first delay is over, before the second has
    been shown for 3000 ms; the reset of the second is still pending
    then. *)
Theorem second_result_cut_short (w : World) (first second : ConvertState) (d : nat) :
  subscribed convertStateChanged_ w = true ->
  isTerminal first = true ->
  isTerminal second = true ->
  0 < d < 3000 ->
  let w' := run w [Emit_convertStateChanged first; Elapse d;
                   Emit_convertStateChanged second; Elapse (3000 - d)] in
  now (delayer w') = now (delayer w) + 3000 /\
  _convertState (this w') = WaitingForClipboardContent /\
  In (now (delayer w) + d + 3000, callResetState) (pending (delayer w')).
Proof.
  intros Hsub Hfirst Hsecond Hd w'. subst w'.
  remember (3000 - d) as rest eqn:Hrest.
  assert (Hsum : d + rest = 3000) by lia. clear Hrest.
  rewrite !run_step. cbn [ConvertComponent.run fold_left ConvertComponent.step].
  rewrite Hsub.
  set (w1 := handleConvertStateChanged first w).
  assert (Hp1 : In (now (delayer w) + 3000, callResetState) (pending (delayer w1))).
  { subst w1. unfold handleConvertStateChanged.
    destruct first; try discriminate Hfirst; simpl; apply in_or_app; right; now left. }
  assert (Hn1 : now (delayer w1) = now (delayer w)).
  { subst w1. unfold handleConvertStateChanged.
    destruct first; try discriminate Hfirst; reflexivity. }
  assert (Hs1 : subscription (this w1) = subscription (this w)).
  { subst w1. unfold handleConvertStateChanged.
    destruct first; try discriminate Hfirst; reflexivity. }
  set (w2 := elapse d w1).
  assert (Hsub2 : subscribed convertStateChanged_ w2 = true).
  { unfold subscribed. subst w2. rewrite elapse_subscription, Hs1. exact Hsub. }
  rewrite Hsub2.
  assert (Hn2 : now (delayer w2) = now (delayer w) + d).
  { subst w2. unfold elapse; simpl. now rewrite Hn1. }
  assert (Hp2 : In (now (delayer w) + 3000, callResetState) (pending (delayer w2))).
  { subst w2. unfold elapse; simpl. apply filter_In. split; [exact Hp1|].
    apply negb_true_iff. unfold isDue; simpl. apply Nat.leb_gt. lia. }
  set (w3 := handleConvertStateChanged second w2).
  assert (Hp3 : pending (delayer w3)
                = (pending (delayer w2) ++ [(now (delayer w2) + 3000, callResetState)])%list).
  { subst w3. unfold handleConvertStateChanged.
    destruct second; try discriminate Hsecond; reflexivity. }
  assert (Hn3 : now (delayer w3) = now (delayer w2)).
  { subst w3. unfold handleConvertStateChanged.
    destruct second; try discriminate Hsecond; reflexivity. }
  split; [|split].
  - unfold elapse; simpl. rewrite Hn3, Hn2. lia.
  - destruct (elapse_due rest (now (delayer w) + 3000) callResetState w3)
      as [Hfields _].
    + rewrite Hp3. apply in_or_app. now left.
    + rewrite Hn3, Hn2. lia.
    + rewrite Hfields. reflexivity.
  - unfold elapse; simpl. apply filter_In. split.
    + rewrite Hp3, Hn2. apply in_or_app. right. now left.
    + apply negb_true_iff. unfold isDue; simpl. apply Nat.leb_gt.
      rewrite Hn3, Hn2. lia.
Qed.

(** *** The clipboard and the progress *)

(** X15. Handling the same clipboard text twice is handling it once, in
    every state. And while the component listens, [convertState] and
    [downloadUrl] after two clipboard changes are what the second change
    alone would give: a new link replaces the one held, without notice. *)
Theorem clipboard_latest_text_decides (w : World) (first second : string) :
  handleClipboardContentChanged first (handleClipboardContentChanged first w)
    = handleClipboardContentChanged first w /\
  (_convertState (this w) = WaitingForClipboardContent \/
   _convertState (this w) = HasValidClipboardContent ->
   let twice := handleClipboardContentChanged second (handleClipboardContentChanged first w) in
   let once := handleClipboardContentChanged second w in
   _convertState (this twice) = _convertState (this once) /\
   _downloadUrl (this twice) = _downloadUrl (this once)).
Proof.
  split.
  - unfold ConvertComponent.handleClipboardContentChanged.
    destruct (_convertState (this w)) eqn:Hstate; simpl;
      try (rewrite Hstate; reflexivity);
      destruct (ConvertService.isVideoUrlConvertible youtubeLinks first) eqn:Hok;
      simpl; rewrite ?Hok; reflexivity.
  - intros Hlisten twice once. subst twice once.
    unfold ConvertComponent.handleClipboardContentChanged.
    destruct Hlisten as [-> | ->]; simpl;
      destruct (ConvertService.isVideoUrlConvertible youtubeLinks first); simpl;
      destruct (ConvertService.isVideoUrlConvertible youtubeLinks second); simpl;
      split; reflexivity.
Qed.

Lemma last_nonempty {A : Type} (a : A) (l : list A) (d d' : A) :
  last (a :: l) d = last (a :: l) d'.
Proof.
  revert a. induction l as [|b l IH]; intro a; [reflexivity|].
  change (last (b :: l) d = last (b :: l) d'). apply IH.
Qed.

(** X16. A subscribed component shows the progress as reported: after any
    series of progress reports [progressPercent] is the last of them, and
    neither [convertState], nor [downloadUrl], nor the delayer has
    changed. *)
Theorem progress_shows_last_report (w : World) (reports : list Z) :
  subscribed convertProgressChanged_ w = true ->
  let w' := run w (map Emit_convertProgressChanged reports) in
  _progressPercent (this w') = last reports (_progressPercent (this w)) /\
  _convertState (this w') = _convertState (this w) /\
  _downloadUrl (this w') = _downloadUrl (this w) /\
  delayer w' = delayer w.
Proof.
  revert w. induction reports as [|p rest IH]; intros w Hsub w'.
  - repeat split.
  - subst w'. cbn [map]. rewrite run_step. cbn [ConvertComponent.step]. rewrite Hsub.
    destruct (IH (handleConvertProgressChanged p w) Hsub) as (H1 & H2 & H3 & H4).
    rewrite H1, H2, H3, H4. repeat split.
    destruct rest as [|q rest]; [reflexivity|].
    change (last (p :: q :: rest) (_progressPercent (this w)))
      with (last (q :: rest) (_progressPercent (this w))).
    apply last_nonempty.
Qed.

End RunFacts.

(* ===================================================================== *)
(** * The further properties on concrete runs *)
(* ===================================================================== *)

(** The output directory cannot be created: the call throws and nothing
    has changed. *)
Lemma convertAsync_converts_iff_prepared_witness :
  Preparation.awaited Samples.lockedFileSystem
    (ConvertService.sampleChecker true "") (ConvertService.sampleChecker false "/deps/youtube-dl")
    (ConvertService.outputDirectory (ConvertService.this ConvertService.sampleWorld))
    = Rejected "EACCES" /\
  ConvertService.convertAsync Samples.lockedFileSystem
    (ConvertService.sampleChecker true "") (ConvertService.sampleChecker false "/deps/youtube-dl")
    (fun _ => ConvertService.succeedingConverter)
    ConvertService.sampleUrl ConvertService.sampleWorld
    = (Rejected "EACCES", ConvertService.sampleWorld).
Proof.
  split; [reflexivity|].
  exact (proj2 (convertAsync_converts_iff_prepared Samples.lockedFileSystem
                  (ConvertService.sampleChecker true "")
                  (ConvertService.sampleChecker false "/deps/youtube-dl")
                  (fun _ => ConvertService.succeedingConverter)
                  ConvertService.sampleUrl ConvertService.sampleWorld)
           "EACCES" eq_refl).
Defined.


(** The settings name a format that is not listed. *)
Lemma construct_selects_from_settings_witness :
  (forall v, In v Samples.formats -> ConvertService.id v <> "ogg") /\
  ConvertService._selectedAudioFormat
    (Configuration.service (Samples.constructed "ogg" 320)) = None /\
  ConvertService._selectedAudioBitrate
    (Configuration.service (Samples.constructed "ogg" 320)) = Some 320%Z.
Proof.
  assert (Hnone : forall v, In v Samples.formats -> ConvertService.id v <> "ogg").
  { intros v [<- | [<- | []]]; simpl; discriminate. }
  destruct (construct_selects_from_settings Samples.formats Samples.bitrates Samples.pathJoin
              ConvertService.sampleFileSystem (Samples.settingsWith "ogg" 320))
    as (_ & Hformat & Hrate & _).
  split; [exact Hnone|]. split.
  - exact (proj2 Hformat Hnone).
  - apply (proj2 Hrate). simpl. auto.
Defined.

(** The format is changed to flac, the application restarts. *)
Lemma selection_survives_restart_witness :
  In {| ConvertService.id := "flac" |} Samples.formats /\
  exists v',
    ConvertService._selectedAudioFormat
      (Configuration.service
         (Configuration.construct Samples.formats Samples.bitrates Samples.pathJoin
            ConvertService.sampleFileSystem
            (Configuration.settings
               (Configuration.set_selectedAudioFormat {| ConvertService.id := "flac" |}
                  (Samples.constructed "mp3" 320))))) = Some v' /\
    In v' Samples.formats /\ ConvertService.id v' = "flac".
Proof.
  split; [simpl; auto|].
  apply (proj1 (selection_survives_restart Samples.formats Samples.bitrates Samples.pathJoin
                  ConvertService.sampleFileSystem (Samples.constructed "mp3" 320))
           {| ConvertService.id := "flac" |}).
  simpl. auto.
Defined.

(** A failed conversion: its reset is due within three seconds, and three
    seconds later the failure is no longer shown. *)
Lemma terminal_state_never_stays_witness :
  let w := run sampleLinks (ngOnInit new) [PrerequisitesSettled (Resolved true);
                                           Emit_convertStateChanged Failed] in
  In (3000, callResetState) (pending (delayer w)) /\
  now (delayer w) < 3000 <= now (delayer w) + 3000 /\
  ConvertComponentActions.isTerminal (_convertState (this (elapse 3000 w))) = false.
Proof.
  destruct (terminal_state_never_stays sampleLinks
              [PrerequisitesSettled (Resolved true); Emit_convertStateChanged Failed])
    as (Hbound & _ & Hstate).
  split; [left; reflexivity|]. split.
  - exact (Hbound (3000, callResetState) (or_introl eq_refl)).
  - exact Hstate.
Defined.

(** A failure, and one second later a success. *)
Lemma second_result_cut_short_witness :
  let w' := run sampleLinks (initialised true)
              [Emit_convertStateChanged Failed; Elapse 1000;
               Emit_convertStateChanged Successful; Elapse (3000 - 1000)] in
  (subscribed convertStateChanged_ (initialised true) = true /\ 0 < 1000 < 3000) /\
  now (delayer w') = 3000 /\
  _convertState (this w') = WaitingForClipboardContent /\
  In (4000, callResetState) (pending (delayer w')).
Proof.
  split; [split; [reflexivity | lia]|].
  exact (second_result_cut_short sampleLinks (initialised true) Failed Successful 1000
           eq_refl eq_refl eq_refl ltac:(lia)).
Defined.

(** A second link is copied while the first is held. *)
Lemma clipboard_latest_text_decides_witness :
  let twice := handleClipboardContentChanged sampleLinks Samples.otherUrl
                 (handleClipboardContentChanged sampleLinks ConvertService.sampleUrl
                    (initialised true)) in
  _convertState (this (initialised true)) = WaitingForClipboardContent /\
  _convertState (this twice)
    = _convertState (this (handleClipboardContentChanged sampleLinks Samples.otherUrl
                             (initialised true))) /\
  _downloadUrl (this twice)
    = _downloadUrl (this (handleClipboardContentChanged sampleLinks Samples.otherUrl
                            (initialised true))).
Proof.
  split; [reflexivity|].
  exact (proj2 (clipboard_latest_text_decides sampleLinks (initialised true)
                  ConvertService.sampleUrl Samples.otherUrl)
           (or_introl eq_refl)).
Defined.

(** The converter reports 10, then 45 percent. *)
Lemma progress_shows_last_report_witness :
  let w' := run sampleLinks (initialised true)
              (map Emit_convertProgressChanged [10; 45]%Z) in
  subscribed convertProgressChanged_ (initialised true) = true /\
  _progressPercent (this w') = 45%Z /\
  _convertState (this w') = WaitingForClipboardContent.
Proof.
  destruct (progress_shows_last_report sampleLinks (initialised true) [10; 45]%Z eq_refl)
    as (Hlast & Hstate & _).
  split; [reflexivity|]. split; [exact Hlast | exact Hstate].
Defined.
